(** * A shallow embedding of the dialog orchestration engine

    The Python sources embedded here are
    - [src/config/system_config.py]   (tool and intent tables, batch scheduler),
    - [src/agents/supervisor_agent.py] (intent router, intent switch),
    - [src/agents/input_parameter_agent.py] (slot filler),
    - [src/agents/tool_executing_agent.py] and [src/tools/tool_registry.py],
    - [src/agents/generation_agent.py] (response composer).

    Python dictionaries keyed by strings are finite maps [gmap string _];
    a [TypedDict] with fixed keys is a record; a LangGraph [Command] is a
    destination node together with a partial state update.  Calls to the
    language model are inputs of the functions that make them. *)

From Stdlib Require Import ZArith Ascii String.
From stdpp Require Import base list strings gmap.

Open Scope string_scope.
Open Scope Z_scope.
Open Scope list_scope.

(** ** Python values and truthiness *)

(** The values that parameters and tool payloads take ([Any] in the source). *)
Inductive value : Type :=
| VNone
| VBool (b : bool)
| VInt (z : Z)
| VStr (s : string).

(** [bool(v)] *)
Definition truthy (v : value) : bool :=
  match v with
  | VNone => false
  | VBool b => b
  | VInt z => negb (z =? 0)
  | VStr s => negb (String.eqb s "")
  end.

(** [bool(d.get(k))]: an absent key gives [None], which is falsy. *)
Definition truthy_get (d : gmap string value) (k : string) : bool :=
  match d !! k with
  | Some v => truthy v
  | None => false
  end.

(** [bool(s)] for an [Optional[str]] *)
Definition truthy_str (o : option string) : bool :=
  match o with
  | Some s => negb (String.eqb s "")
  | None => false
  end.

(** ** Strings: [str.lower], [str.strip] and the [in] operator

    Message texts are modelled as ASCII strings. *)

Definition lower_ascii (c : ascii) : ascii :=
  let n := nat_of_ascii c in
  if (Nat.leb 65 n && Nat.leb n 90)%bool then ascii_of_nat (n + 32) else c.

Fixpoint lower (s : string) : string :=
  match s with
  | EmptyString => EmptyString
  | String c s' => String (lower_ascii c) (lower s')
  end.

Definition is_space (c : ascii) : bool :=
  let n := nat_of_ascii c in
  (Nat.eqb n 32 || (Nat.leb 9 n && Nat.leb n 13) || (Nat.leb 28 n && Nat.leb n 31))%bool.

Fixpoint lstrip (s : string) : string :=
  match s with
  | EmptyString => EmptyString
  | String c s' => if is_space c then lstrip s' else s
  end.

Fixpoint string_rev (s : string) : string :=
  match s with
  | EmptyString => EmptyString
  | String c s' => string_rev s' +:+ String c EmptyString
  end.

Definition strip (s : string) : string :=
  string_rev (lstrip (string_rev (lstrip s))).

(** [w in s] on strings: [w] occurs as a contiguous substring of [s]. *)
Fixpoint contains (w s : string) : bool :=
  (String.prefix w s ||
   match s with
   | EmptyString => false
   | String _ s' => contains w s'
   end)%bool.

(** [any(word in s for word in words)] *)
Definition any_in (words : list string) (s : string) : bool :=
  existsb (fun word => contains word s) words.

(** ** System configuration ([system_config.py]) *)

Record tool_config : Type := ToolConfig {
  tc_function : string;
  tc_description : string;
  tc_parameters : list string;
  tc_requires : option (list string);   (* the key may be absent *)
  tc_returns : string
}.

Record param_config : Type := ParamConfig {
  pc_type : string;
  pc_description : string;
  pc_question : string;
  pc_required : bool
}.

Record intent_config : Type := IntentConfig {
  ic_description : string;
  ic_tools : list string;
  ic_parameters : list (string * param_config)   (* insertion ordered *)
}.

Definition TOOLS : gmap string tool_config :=
  list_to_map [
    ("search_flights",
      ToolConfig "travel_tools.search_flights" "Search for available flights"
        ["origin"; "destination"; "date"] None "flight_options");
    ("book_flight",
      ToolConfig "travel_tools.book_flight" "Book a specific flight"
        ["origin"; "destination"; "date"] (Some ["flight_options"])
        "booking_confirmation");
    ("search_hotels",
      ToolConfig "travel_tools.search_hotels" "Search for hotels"
        ["destination"; "days"] None "hotel_options");
    ("book_hotel",
      ToolConfig "travel_tools.book_hotel" "Book a specific hotel"
        ["destination"; "days"] (Some ["hotel_options"]) "hotel_booking");
    ("get_weather",
      ToolConfig "travel_tools.get_weather" "Get weather information"
        ["destination"; "date"] None "weather_info")
  ].

Definition INTENTS_items : list (string * intent_config) :=
  [ ("book_flight",
      IntentConfig "Book airline tickets" ["search_flights"; "book_flight"]
        [ ("origin", ParamConfig "string" "Departure city or airport"
                       "Which city or airport are you departing from?" true);
          ("destination", ParamConfig "string" "Arrival city or airport"
                       "Where would you like to fly to?" true);
          ("date", ParamConfig "date" "Travel date"
                       "What date would you like to travel?" true) ]);
    ("book_hotel",
      IntentConfig "Book hotel accommodation" ["search_hotels"; "book_hotel"]
        [ ("destination", ParamConfig "string" "City or location for hotel"
                       "Which city do you need a hotel in?" true);
          ("days", ParamConfig "int" "Number of days to stay"
                       "How many days will you be staying?" true) ]);
    ("plan_vacation",
      IntentConfig "Plan a complete vacation with flights, hotel, and weather"
        ["search_flights"; "search_hotels"; "get_weather"; "book_flight"; "book_hotel"]
        [ ("origin", ParamConfig "string" "Where you're traveling from"
                       "Where are you traveling from?" true);
          ("destination", ParamConfig "string" "Vacation destination"
                       "Where would you like to go on vacation?" true);
          ("date", ParamConfig "date" "Travel start date"
                       "When would you like to start your vacation?" true);
          ("days", ParamConfig "int" "Length of vacation"
                       "How many days will your vacation be?" true) ])
  ].

Definition INTENTS : gmap string intent_config := list_to_map INTENTS_items.

(** [list(INTENTS.keys())] *)
Definition get_available_intents : list string := INTENTS_items.*1.

Definition INTENT_DETECTION_KEYWORDS : list (string * list string) :=
  [ ("book_flight",
      ["book flight"; "flight booking"; "airline ticket"; "plane ticket";
       "fly to"; "flight to"; "book airplane"; "air travel"]);
    ("book_hotel",
      ["book hotel"; "hotel booking"; "hotel room"; "accommodation";
       "stay in"; "hotel in"; "reserve hotel"]);
    ("plan_vacation",
      ["plan vacation"; "vacation planning"; "trip planning"; "holiday planning";
       "organize trip"; "plan trip"; "vacation package"; "plan my vacation"]) ].

(** [max(intent_scores, key=intent_scores.get)]: the first key, in insertion
    order, whose score is maximal. *)
Fixpoint max_by_score (best : string * nat) (rest : list (string * nat)) : string :=
  match rest with
  | [] => best.1
  | x :: rest' => max_by_score (if (best.2 <? x.2)%nat then x else best) rest'
  end.

Definition detect_intent_from_keywords (user_message : string) : option string :=
  let user_message_lower := lower user_message in
  let intent_scores :=
    List.filter (λ kv : string * nat, (0 <? kv.2)%nat)
      ((λ '(intent, keywords),
          (intent, length (List.filter (λ keyword, contains keyword user_message_lower)
                                       keywords)))
         <$> INTENT_DETECTION_KEYWORDS) in
  match intent_scores with
  | [] => None
  | first :: others => Some (max_by_score first others)
  end.

(** ** The batch scheduler ([get_tool_execution_order])

    The scheduler is written over arbitrary tool and intent tables, so that
    statements can range over every configuration; the tables above are one
    instance.  [remaining_tools] is a Python [set]: it is represented by a
    duplicate-free list, and [set_order] gives the order in which a set with
    these members is iterated (Python leaves it unspecified). *)

Section Scheduler.

Variable tools_table : gmap string tool_config.
Variable intents_table : gmap string intent_config.
Variable set_order : list string → list string.

Definition get_intent_config (intent_name : string) : option intent_config :=
  intents_table !! intent_name.

Definition get_tool_config (tool_name : string) : option tool_config :=
  tools_table !! tool_name.

(** The body of [for tool in remaining_tools]: does [tool] join
    [ready_tools]?  [requires] holds tags; the membership test is against
    the names found in [execution_order]. *)
Definition tool_ready (execution_order : list (list string)) (tool : string) : bool :=
  match get_tool_config tool with
  | None => false
  | Some cfg =>
      forallb (fun dep => bool_decide (dep ∈ concat execution_order))
              (default [] (tc_requires cfg))
  end.

(** One iteration of [while remaining_tools]: the batch that is appended. *)
Definition next_batch (remaining : list string) (execution_order : list (list string))
  : list string :=
  let ready_tools := List.filter (tool_ready execution_order) (set_order remaining) in
  match ready_tools with
  | [] => take 1 (set_order remaining)
  | _ => ready_tools
  end.

Fixpoint schedule_loop (fuel : nat) (remaining : list string)
         (execution_order : list (list string)) : option (list (list string)) :=
  match remaining with
  | [] => Some execution_order
  | _ :: _ =>
      match fuel with
      | O => None
      | S fuel' =>
          let batch := next_batch remaining execution_order in
          schedule_loop fuel' (list_difference remaining batch)
                        (execution_order ++ [batch])
      end
  end.

Definition get_tool_execution_order (intent_name : string)
  : option (list (list string)) :=
  match get_intent_config intent_name with
  | None => Some []
  | Some cfg =>
      match ic_tools cfg with
      | [] => Some []
      | tools =>
          let remaining_tools := remove_dups tools in
          schedule_loop (length remaining_tools) remaining_tools []
      end
  end.

(** The readiness test as the specification words it: a dependency tag is
    met when a tool of an earlier batch produces it. *)
Definition produced_tags (execution_order : list (list string)) : list string :=
  omap (fun t => tc_returns <$> get_tool_config t) (concat execution_order).

Definition spec_tool_ready (execution_order : list (list string)) (tool : string) : bool :=
  match get_tool_config tool with
  | None => false
  | Some cfg =>
      forallb (fun dep => bool_decide (dep ∈ produced_tags execution_order))
              (default [] (tc_requires cfg))
  end.

End Scheduler.

Definition insertion_order (l : list string) : list string := l.

Example order_book_flight :
  get_tool_execution_order TOOLS INTENTS insertion_order "book_flight"
  = Some [["search_flights"]; ["book_flight"]].
Proof. vm_compute. reflexivity. Qed.

Example order_plan_vacation :
  get_tool_execution_order TOOLS INTENTS insertion_order "plan_vacation"
  = Some [["search_flights"; "search_hotels"; "get_weather"]; ["book_flight"]; ["book_hotel"]].
Proof. vm_compute. reflexivity. Qed.

(** ** Properties of the scheduler *)

Section SchedulerFacts.

Variable tools_table : gmap string tool_config.
Variable intents_table : gmap string intent_config.
Variable set_order : list string → list string.
Hypothesis set_order_perm : ∀ l, set_order l ≡ₚ l.

Abbreviation batch_of := (next_batch tools_table set_order).
Abbreviation loop := (schedule_loop tools_table set_order).
Abbreviation ready := (tool_ready tools_table).

Lemma next_batch_subseteq remaining eo :
  batch_of remaining eo ⊆ remaining.
Proof.
  intros t Ht. rewrite <- (set_order_perm remaining).
  unfold next_batch in Ht.
  destruct (List.filter _ _) as [|r rs] eqn:E.
  - eapply subseteq_take, Ht.
  - rewrite <- E in Ht. apply list_elem_of_In, filter_In in Ht as [Ht _].
    now apply list_elem_of_In.
Qed.

Lemma next_batch_nonempty remaining eo :
  remaining ≠ [] → batch_of remaining eo ≠ [].
Proof.
  intros Hne. unfold next_batch.
  destruct (List.filter _ _) as [|r rs] eqn:E; [|done].
  destruct (set_order remaining) as [|x xs] eqn:Ex; [|done].
  specialize (set_order_perm remaining). rewrite Ex in set_order_perm.
  apply Permutation_nil_l in set_order_perm. congruence.
Qed.

Lemma next_batch_NoDup remaining eo :
  NoDup remaining → NoDup (batch_of remaining eo).
Proof.
  intros Hnd. rewrite <- (set_order_perm remaining) in Hnd.
  unfold next_batch.
  destruct (List.filter _ _) as [|r rs] eqn:E.
  - destruct (set_order remaining); simpl; [constructor|].
    rewrite take_0. apply NoDup_singleton.
  - rewrite <- E. apply NoDup_ListNoDup, List.NoDup_filter, NoDup_ListNoDup, Hnd.
Qed.

(** Removing a batch from the remaining set splits it in two. *)
Lemma difference_split (remaining batch : list string) :
  NoDup remaining → NoDup batch → batch ⊆ remaining →
  remaining ≡ₚ batch ++ list_difference remaining batch.
Proof.
  intros Hr Hb Hsub. apply NoDup_Permutation; [done| |].
  - apply NoDup_app. split; [done|]. split.
    + intros x Hx Hx'. apply list_elem_of_difference in Hx'. tauto.
    + by apply NoDup_list_difference.
  - intros x. rewrite elem_of_app, list_elem_of_difference.
    split.
    + intros Hx. destruct (decide (x ∈ batch)); tauto.
    + intros [Hx|[Hx _]]; auto.
Qed.

Lemma difference_shrinks (remaining batch : list string) :
  NoDup remaining → NoDup batch → batch ⊆ remaining → batch ≠ [] →
  (length (list_difference remaining batch) < length remaining)%nat.
Proof.
  intros Hr Hb Hsub Hne.
  pose proof (Permutation_length (difference_split _ _ Hr Hb Hsub)) as Hlen.
  rewrite length_app in Hlen. destruct batch; [done|]. simpl in Hlen. lia.
Qed.

Lemma schedule_loop_step fuel remaining eo :
  remaining ≠ [] →
  loop (S fuel) remaining eo
  = loop fuel (list_difference remaining (batch_of remaining eo))
                  (eo ++ [batch_of remaining eo]).
Proof. destruct remaining; [done | reflexivity]. Qed.

(** The loop runs to completion within [length remaining] iterations, and
    what it adds to [execution_order] is a rearrangement of [remaining]. *)
Lemma schedule_loop_partition fuel : ∀ remaining eo,
  NoDup remaining → (length remaining ≤ fuel)%nat →
  ∃ eo', loop fuel remaining eo = Some (eo ++ eo')
         ∧ concat eo' ≡ₚ remaining
         ∧ Forall (λ b, b ≠ []) eo'.
Proof.
  induction fuel as [|fuel IH]; intros remaining eo Hnd Hlen.
  - destruct remaining; [|simpl in Hlen; lia].
    exists []. simpl. rewrite app_nil_r. auto.
  - destruct (decide (remaining = [])) as [->|Hne].
    { exists []. simpl. rewrite app_nil_r. auto. }
    pose proof (next_batch_subseteq remaining eo) as Hsub.
    pose proof (next_batch_nonempty remaining eo Hne) as Hbne.
    pose proof (next_batch_NoDup remaining eo Hnd) as Hbnd.
    pose proof (difference_shrinks _ _ Hnd Hbnd Hsub Hbne) as Hlt.
    destruct (IH (list_difference remaining (batch_of remaining eo))
                 (eo ++ [batch_of remaining eo])) as (eo' & Heq & Hperm & Hall).
    { by apply NoDup_list_difference. }
    { lia. }
    exists (batch_of remaining eo :: eo'). split; [|split].
    + rewrite schedule_loop_step, Heq by done.
      by rewrite <- app_assoc.
    + simpl. rewrite Hperm. symmetry. by apply difference_split.
    + by constructor.
Qed.

(** The scheduler is total, and on a known intent its batches hold every
    tool of the intent exactly once. *)
Lemma get_tool_execution_order_partition intent_name cfg :
  intents_table !! intent_name = Some cfg →
  ∃ eo, get_tool_execution_order tools_table intents_table set_order intent_name = Some eo
        ∧ concat eo ≡ₚ remove_dups (ic_tools cfg)
        ∧ NoDup (concat eo)
        ∧ Forall (λ b, b ≠ []) eo.
Proof.
  intros Hcfg. unfold get_tool_execution_order, get_intent_config. rewrite Hcfg.
  destruct (ic_tools cfg) as [|t ts] eqn:Et.
  { exists []. simpl. repeat split; auto using NoDup_nil_2. }
  rewrite <- Et.
  destruct (schedule_loop_partition (length (remove_dups (ic_tools cfg)))
              (remove_dups (ic_tools cfg)) []) as (eo & Heq & Hperm & Hall).
  { apply NoDup_remove_dups. }
  { lia. }
  exists eo. simpl in Heq. repeat split; try done.
  rewrite Hperm. apply NoDup_remove_dups.
Qed.

(** A batch produced by the stall fallback holds one tool. *)
Lemma next_batch_forced remaining eo t :
  t ∈ batch_of remaining eo → ready eo t = false →
  batch_of remaining eo = [t].
Proof.
  unfold next_batch.
  destruct (List.filter _ _) as [|r rs] eqn:E.
  - destruct (set_order remaining) as [|x xs]; simpl; [by intros ?%elem_of_nil|].
    rewrite take_0. intros ->%list_elem_of_singleton. done.
  - rewrite <- E. intros Ht%list_elem_of_In%filter_In Hf.
    destruct Ht as [_ Ht]. congruence.
Qed.

End SchedulerFacts.

(** ** Session state ([schemas/dialog_state.py]) *)

Record message : Type := Message { role : string; content : string }.

(** An entry of [paused_intents], as [_execute_intent_switch] builds it. *)
Record paused_intent : Type := PausedIntent {
  pi_intent : string;
  pi_parameters : gmap string value;
  pi_tools : list string;
  pi_paused_at : string
}.

(** The values stored under the keys of [dialog_context]. *)
Inductive ctxval : Type :=
| CNone
| CBool (b : bool)
| CInt (z : Z)
| CStr (s : string)
| CStrList (l : list string)
| CBatches (l : list (list string))
| CCounts (m : gmap string Z)
| CConfirm (type from to : string).   (* {"type": _, "from": _, "to": _} *)

Definition ctx_truthy (v : ctxval) : bool :=
  match v with
  | CNone => false
  | CBool b => b
  | CInt z => negb (z =? 0)
  | CStr s => negb (String.eqb s "")
  | CStrList l => match l with [] => false | _ => true end
  | CBatches l => match l with [] => false | _ => true end
  | CCounts m => negb (bool_decide (size m = 0%nat))
  | CConfirm _ _ _ => true
  end.

Record DialogState : Type := mkState {
  messages : list message;
  current_intent : option string;
  paused_intents : list paused_intent;
  extracted_parameters : gmap string value;
  selected_tools : list string;
  tool_results : gmap string (gmap string value);
  dialog_context : gmap string ctxval
}.

(** [dialog_context.get(key, default)] at the type each key is written with. *)
Definition ctx_list (ctx : gmap string ctxval) (key : string) : list string :=
  match ctx !! key with Some (CStrList l) => l | _ => [] end.

Definition ctx_batches (ctx : gmap string ctxval) (key : string) : list (list string) :=
  match ctx !! key with Some (CBatches l) => l | _ => [] end.

Definition ctx_int (ctx : gmap string ctxval) (key : string) (dflt : Z) : Z :=
  match ctx !! key with Some (CInt z) => z | _ => dflt end.

Definition ctx_counts (ctx : gmap string ctxval) (key : string) : gmap string Z :=
  match ctx !! key with Some (CCounts m) => m | _ => ∅ end.

Definition ctx_flag (ctx : gmap string ctxval) (key : string) : bool :=
  match ctx !! key with Some v => ctx_truthy v | None => false end.

(** ** Commands: where to go next and which state keys to overwrite *)

Inductive node : Type :=
| supervisor | tool_choosing | input_parameter | tool_executing | generation
| END.   (* "__end__" *)

Record Update : Type := mkUpdate {
  u_messages : option (list message);
  u_current_intent : option (option string);
  u_paused_intents : option (list paused_intent);
  u_extracted_parameters : option (gmap string value);
  u_selected_tools : option (list string);
  u_tool_results : option (gmap string (gmap string value));
  u_dialog_context : option (gmap string ctxval)
}.

Definition no_update : Update := mkUpdate None None None None None None None.

Record Command : Type := mkCommand { goto : node; update : Update }.

(** The state graph has no reducers: a key of the update replaces the
    state's value for that key, the other keys are kept. *)
Definition apply_update (s : DialogState) (u : Update) : DialogState :=
  mkState (default (messages s) (u_messages u))
          (default (current_intent s) (u_current_intent u))
          (default (paused_intents s) (u_paused_intents u))
          (default (extracted_parameters s) (u_extracted_parameters u))
          (default (selected_tools s) (u_selected_tools u))
          (default (tool_results s) (u_tool_results u))
          (default (dialog_context s) (u_dialog_context u)).

(** ** Slot filler ([InputParameterAgent]) *)

Definition get_parameter_question (intent_name : option string) (param_name : string)
  : string :=
  let dflt := "Could you please provide the " +:+ param_name +:+ "?" in
  match intent_name ≫= get_intent_config INTENTS with
  | None => dflt
  | Some cfg =>
      match list_to_map (M := gmap string param_config) (ic_parameters cfg) !! param_name with
      | Some pc => pc_question pc
      | None => dflt
      end
  end.

(** [sep.join(l)] *)
Fixpoint join (sep : string) (l : list string) : string :=
  match l with
  | [] => ""
  | [x] => x
  | x :: rest => x +:+ sep +:+ join sep rest
  end.

Definition _generate_clarification_question (intent_name : option string)
           (missing_params : list string) : string :=
  match missing_params with
  | [] => "I need some additional information to help you. Could you please provide more details?"
  | [param] => "I need one more detail: " +:+ get_parameter_question intent_name param
  | [p0; p1] =>
      "I need two more details: " +:+ get_parameter_question intent_name p0
        +:+ " and " +:+ get_parameter_question intent_name p1
  | _ =>
      let questions := get_parameter_question intent_name <$> missing_params in
      "I need a few more details: "
        +:+ join ", " (take (length questions - 1) questions)
        +:+ ", and " +:+ default "" (last questions)
  end.

(** [_extract_parameters]: [llm_result] is the JSON object the model answered
    with, or [None] when the call or the parsing raised. *)
Definition _extract_parameters (llm_result : option (gmap string value))
           (intent : option string) (required_params : list string)
  : gmap string value :=
  match intent ≫= get_intent_config INTENTS with
  | None => ∅
  | Some _ =>
      match llm_result with
      | None => ∅
      | Some result => filter (λ kv, kv.1 ∈ required_params) result
      end
  end.

(** The content of the most recent user message, if any. *)
Definition latest_user_message (msgs : list message) : option string :=
  content <$> List.find (λ m, String.eqb (role m) "user") (reverse msgs).

Definition missing_in (required_parameters : list string) (params : gmap string value)
  : list string :=
  List.filter (λ p, negb (truthy_get params p)) required_parameters.

Definition failure_msg (param : string) : string :=
  "I've tried several times to get the " +:+ param +:+
  " from you, but I'm still not clear on what you need. Could you please start over with a complete request? For example: 'Book a flight from New York to Paris on December 25th'".

(** [retry_counts.copy()] followed by the increment loop over [missing_params]. *)
Definition increment_retries (retry_counts : gmap string Z) (missing_params : list string)
  : gmap string Z :=
  foldl (λ counts param, <[param := default 0 (counts !! param) + 1]> counts)
        retry_counts missing_params.

(** [{**current_params, **extracted_params}]: extracted values win. *)
Definition merge_parameters (current_params extracted_params : gmap string value)
  : gmap string value :=
  extracted_params ∪ current_params.

Definition InputParameterAgent_call (llm_result : option (gmap string value))
           (state : DialogState) : Command :=
  let current_intent := current_intent state in
  let current_params := extracted_parameters state in
  let dialog_context := dialog_context state in
  let required_parameters := ctx_list dialog_context "required_parameters" in
  if negb (truthy_str (latest_user_message (messages state))) then
      mkCommand supervisor
        (mkUpdate None None None None None None
           (Some {["error" := CStr "No user message to process"]}))
  else
      let extracted_params :=
        _extract_parameters llm_result current_intent required_parameters in
      let updated_params := merge_parameters current_params extracted_params in
      let missing_params := missing_in required_parameters updated_params in
      let retry_counts := ctx_counts dialog_context "retry_counts" in
      let max_retries := ctx_int dialog_context "max_retries" 5 in
      let progress :=
        mkCommand supervisor
          (mkUpdate None None None (Some updated_params) None None
             (Some (<["last_response_type" := CStr "parameter_progress"]>
                    (<["needs_clarification" := CBool false]>
                    (<["last_missing_params" := CStrList missing_params]>
                       dialog_context))))) in
      match missing_params with
      | [] => progress
      | _ :: _ =>
          match List.find (λ param, default 0 (retry_counts !! param) >=? max_retries)
                          missing_params with
          | Some param =>
              mkCommand generation
                (mkUpdate
                   (Some (messages state ++ [Message "assistant" (failure_msg param)]))
                   None None (Some updated_params) None None
                   (Some (<["last_response_type" := CStr "parameter_failure"]>
                          (<["failed_parameter" := CStr param]>
                          (<["parameter_collection_failed" := CBool true]>
                             dialog_context)))))
          | None =>
              if (0 <? size extracted_params)%nat then progress
              else
                let clarification_msg :=
                  _generate_clarification_question current_intent missing_params in
                let updated_retry_counts := increment_retries retry_counts missing_params in
                mkCommand generation
                  (mkUpdate
                     (Some (messages state ++ [Message "assistant" clarification_msg]))
                     None None (Some updated_params) None None
                     (Some (<["last_response_type" := CStr "clarification"]>
                            (<["retry_counts" := CCounts updated_retry_counts]>
                            (<["last_missing_params" := CStrList missing_params]>
                            (<["needs_clarification" := CBool true]>
                               dialog_context))))))
          end
      end.

(** ** Intent router ([SupervisorAgent]) *)

Definition dict_nonempty {V} (d : gmap string V) : bool := (0 <? size d)%nat.

Definition list_nonempty {A} (l : list A) : bool :=
  match l with [] => false | _ :: _ => true end.

Definition ctx_str_is (ctx : gmap string ctxval) (key expected : string) : bool :=
  match ctx !! key with Some (CStr s) => String.eqb s expected | _ => false end.

Definition goodbye_words : list string :=
  ["bye"; "goodbye"; "exit"; "quit"; "thanks"; "thank you"].

Definition _should_end_conversation (state : DialogState) : bool :=
  if ctx_flag (dialog_context state) "end_conversation" then true
  else match last (messages state) with
       | Some m => any_in goodbye_words (lower (content m))
       | None => false
       end.

(** [llm_answer] is the text the model answers with when it is consulted, or
    [None] when the call raises. *)
Definition _detect_user_intent (llm_answer : option string) (msgs : list message)
  : option string :=
  match last msgs with
  | None => None
  | Some m =>
      if negb (String.eqb (role m) "user") then None
      else
        match detect_intent_from_keywords (content m) with
        | Some detected => Some detected
        | None =>
            match llm_answer with
            | None => None
            | Some answer =>
                let intent := lower (strip answer) in
                if bool_decide (intent ∈ get_available_intents ++ ["general"])
                then (if String.eqb intent "general" then None else Some intent)
                else None
            end
        end
  end.

Definition _decide_next_action (state : DialogState) : node :=
  let dialog_context := dialog_context state in
  let required_params := ctx_list dialog_context "required_parameters" in
  if truthy_str (current_intent state) && negb (list_nonempty (selected_tools state))
  then tool_choosing
  else if list_nonempty (selected_tools state) && truthy_str (current_intent state)
          && list_nonempty (missing_in required_params (extracted_parameters state))
  then input_parameter
  else if list_nonempty (selected_tools state) && negb (dict_nonempty (tool_results state))
          && forallb (truthy_get (extracted_parameters state)) required_params
  then tool_executing
  else if dict_nonempty (tool_results state)
  then (if ctx_str_is dialog_context "last_response_type" "generated"
        then END else generation)
  else END.

Definition intent_display_name (intent : string) : string :=
  match get_intent_config INTENTS intent with
  | Some cfg => ic_description cfg
  | None => intent
  end.

Definition _request_intent_switch_confirmation (state : DialogState)
           (current_intent new_intent : string) : Command :=
  let current_name := intent_display_name current_intent in
  let new_name := intent_display_name new_intent in
  let confirmation_msg :=
    "I notice you want to start " +:+ new_name +:+ ", but we were working on "
      +:+ current_name +:+ ". Would you like me to pause the " +:+ current_name
      +:+ " and start " +:+ new_name
      +:+ "? (Reply with 'yes' to switch or 'no' to continue with "
      +:+ current_name +:+ ")" in
  mkCommand END
    (mkUpdate (Some (messages state ++ [Message "assistant" confirmation_msg]))
       None None None None None
       (Some (<["last_response_type" := CStr "confirmation_request"]>
              (<["awaiting_confirmation" := CConfirm "intent_switch" current_intent new_intent]>
                 (dialog_context state))))).

Definition _execute_intent_switch (state : DialogState) (from_intent to_intent : string)
  : Command :=
  let current_params := extracted_parameters state in
  let current_tools := selected_tools state in
  let paused_intent :=
    PausedIntent from_intent current_params current_tools "parameter_collection" in
  let updated_paused :=
    List.filter (λ pi, negb (String.eqb (pi_intent pi) from_intent)) (paused_intents state)
      ++ [paused_intent] in
  mkCommand tool_choosing
    (mkUpdate None (Some (Some to_intent)) (Some updated_paused)
       (Some ∅) (Some []) (Some ∅)
       (Some (list_to_map
                [ ("intent_switched", CBool true);
                  ("previous_intent", CStr from_intent);
                  ("awaiting_confirmation", CNone);
                  ("retry_counts", CCounts ∅);
                  ("max_retries", CInt 5);
                  ("last_response_type", CStr "intent_switch") ]))).

Definition affirmative_words : list string := ["yes"; "y"; "switch"; "pause"].
Definition negative_words : list string := ["no"; "n"; "continue"; "keep"].

Definition _handle_intent_switch_confirmation (state : DialogState)
           (from_intent to_intent : string) : Command :=
  match last (messages state) with
  | None => mkCommand END no_update
  | Some m =>
      if negb (String.eqb (role m) "user") then mkCommand END no_update
      else
        let user_response := strip (lower (content m)) in
        if any_in affirmative_words user_response then
          _execute_intent_switch state from_intent to_intent
        else if any_in negative_words user_response then
          mkCommand input_parameter
            (mkUpdate None None None None None None
               (Some (<["last_response_type" := CStr "user_input"]>
                      (<["awaiting_confirmation" := CNone]> (dialog_context state)))))
        else
          let clarification_msg :=
            "Please respond with 'yes' to switch or 'no' to continue with the current task." in
          mkCommand END
            (mkUpdate (Some (messages state ++ [Message "assistant" clarification_msg]))
               None None None None None None)
  end.

(** [detected_intent or current_intent] *)
Definition py_or (a b : option string) : option string :=
  if truthy_str a then a else b.

(** [awaiting_confirmation] is written as a dictionary with the keys
    ["type"], ["from"], ["to"], or as [None]; other values are not modelled. *)
Definition SupervisorAgent_call (llm_answer : option string) (state : DialogState)
  : Command :=
  if _should_end_conversation state then mkCommand END no_update
  else
    match dialog_context state !! "awaiting_confirmation" with
    | Some (CConfirm _ from_intent to_intent) =>
        _handle_intent_switch_confirmation state from_intent to_intent
    | _ =>
        let detected_intent := _detect_user_intent llm_answer (messages state) in
        match current_intent state, detected_intent with
        | None, Some detected =>
            mkCommand tool_choosing
              (mkUpdate None (Some (Some detected)) None None None None None)
        | Some current, Some detected =>
            if negb (String.eqb detected current) then
              _request_intent_switch_confirmation state current detected
            else
              match _decide_next_action state with
              | tool_choosing =>
                  mkCommand tool_choosing
                    (mkUpdate None (Some (py_or detected_intent (current_intent state)))
                       None None None None None)
              | next_action => mkCommand next_action no_update
              end
        | _, None =>
            match _decide_next_action state with
            | tool_choosing =>
                mkCommand tool_choosing
                  (mkUpdate None (Some (py_or detected_intent (current_intent state)))
                     None None None None None)
            | next_action => mkCommand next_action no_update
            end
        end
    end.

(** ** Tool choosing ([ToolChoosingAgent]) *)

(** The result is [None] only if the scheduler's loop is cut short, which
    [get_tool_execution_order_partition] rules out for every iteration order
    that enumerates the members of the set. *)
Definition ToolChoosingAgent_call (set_order : list string → list string)
           (state : DialogState) : option Command :=
  if negb (truthy_str (current_intent state)) then
    Some (mkCommand supervisor
            (mkUpdate None None None None (Some []) None
               (Some {["error" := CStr "No intent to process"]})))
  else
    match current_intent state ≫= get_intent_config INTENTS with
    | None =>
        Some (mkCommand supervisor
                (mkUpdate None None None None (Some []) None
                   (Some {["error" := CStr ("Unknown intent: "
                                            +:+ default "" (current_intent state))]})))
    | Some intent_config =>
        let selected_tools := ic_tools intent_config in
        let required_parameters := (ic_parameters intent_config).*1 in
        tool_execution_order ←
          get_tool_execution_order TOOLS INTENTS set_order
                                   (default "" (current_intent state));
        Some (mkCommand supervisor
                (mkUpdate None None None None (Some selected_tools) None
                   (Some (list_to_map
                            [ ("required_parameters", CStrList required_parameters);
                              ("tool_execution_order", CBatches tool_execution_order);
                              ("current_tool_batch", CInt 0);
                              ("completed_tools", CStrList []) ]))))
    end.

(** ** Tool registry and tool executor *)

(** What calling a Python function produces. *)
Inductive py_result : Type :=
| RDict (d : gmap string value)
| RScalar (v : value)
| RRaise (msg : string).

(** A tool function: its keyword parameters (none has a default) and body. *)
Record py_function : Type := PyFunction {
  fn_name : string;
  fn_params : list string;
  fn_body : gmap string value → py_result
}.

(** A call that passes [kwargs] as keyword arguments: a keyword the function does not declare, or a declared
    parameter that is not supplied, raises [TypeError]. *)
Definition py_call (f : py_function) (kwargs : list (string * value)) : py_result :=
  match List.find (λ kv : string * value, negb (bool_decide (kv.1 ∈ fn_params f))) kwargs with
  | Some (k, _) =>
      RRaise (fn_name f +:+ "() got an unexpected keyword argument '" +:+ k +:+ "'")
  | None =>
      match List.filter (λ p, negb (bool_decide (p ∈ kwargs.*1))) (fn_params f) with
      | [] => fn_body f (list_to_map kwargs)
      | missing =>
          RRaise (fn_name f +:+ "() missing required positional arguments: "
                  +:+ join ", " missing)
      end
  end.

Inductive validation : Type :=
| Valid
| Invalid (error : string).

Definition validate_tool_parameters (tool_name : string) (parameters : gmap string value)
  : validation :=
  match get_tool_config TOOLS tool_name with
  | None => Invalid ("Unknown tool: " +:+ tool_name)
  | Some tool_config =>
      match List.find (λ param, negb (truthy_get parameters param))
                      (tc_parameters tool_config) with
      | Some param => Invalid ("Missing required parameter: " +:+ param)
      | None => Valid
      end
  end.

Section Executor.

(** [load_function path] is what importing the module of a tool and taking
    the attribute named in its ["function"] entry yields; [None] when the
    import or the attribute lookup fails. *)
Variable load_function : string → option py_function.

Definition get_tool (tool_name : string) : option py_function :=
  tool_config ← get_tool_config TOOLS tool_name;
  load_function (tc_function tool_config).

Definition _execute_tool (tool_name : string) (parameters : gmap string value)
  : gmap string value :=
  match get_tool tool_name with
  | None => {["error" := VStr ("Tool " +:+ tool_name +:+ " not found")]}
  | Some tool_func =>
      match get_tool_config TOOLS tool_name with
      | None => {["error" := VStr ("Tool configuration not found: " +:+ tool_name)]}
      | Some tool_config =>
          let required_params := tc_parameters tool_config in
          let kwargs :=
            (λ param, (param, default VNone (parameters !! param))) <$> required_params in
          match py_call tool_func kwargs with
          | RDict result => result
          | RScalar result => {["result" := result]}
          | RRaise e => {["error" := VStr ("Tool execution failed: " +:+ e)]}
          end
      end
  end.

(** The loop variables of [for tool_name in current_batch_tools]. *)
Record batch_acc : Type := BatchAcc {
  batch_results : gmap string (gmap string value);
  batch_success : bool;
  completed_tools : list string
}.

(** One iteration of the loop.  Neither [validate_tool_parameters] nor
    [_execute_tool] lets an exception out, so the handler of the [try]
    block has no case here. *)
Definition run_tool (parameters : gmap string value) (acc : batch_acc)
           (tool_name : string) : batch_acc :=
  match validate_tool_parameters tool_name parameters with
  | Invalid error =>
      BatchAcc
        (<[tool_name := {["error" := VStr ("Parameter validation failed: " +:+ error);
                          "success" := VBool false]}]> (batch_results acc))
        false
        (completed_tools acc)
  | Valid =>
      let result := _execute_tool tool_name parameters in
      BatchAcc
        (<[tool_name := <["success" := VBool true]> result]> (batch_results acc))
        (batch_success acc)
        (completed_tools acc ++ [tool_name])
  end.

(** [l[i]] for a Python integer index: negative indices count from the
    end, an index out of range raises. *)
Definition py_index {A} (l : list A) (i : Z) : option A :=
  if 0 <=? i then l !! Z.to_nat i
  else if 0 <=? Z.of_nat (length l) + i then l !! Z.to_nat (Z.of_nat (length l) + i)
  else None.

(** The result is [None] when the call raises ([IndexError] for a cursor
    below [-len(tool_execution_order)]). *)
Definition ToolExecutingAgent_call (state : DialogState) : option Command :=
  let selected_tools := selected_tools state in
  let parameters := extracted_parameters state in
  let dialog_context := dialog_context state in
  let required_parameters := ctx_list dialog_context "required_parameters" in
  if negb (list_nonempty selected_tools) then
    Some (mkCommand supervisor
            (mkUpdate None None None None None (Some ∅)
               (Some (<["execution_error" := CStr "No tools selected"]> dialog_context))))
  else
    match missing_in required_parameters parameters with
    | _ :: _ as missing_params =>
        Some (mkCommand supervisor
                (mkUpdate None None None None None None
                   (Some (<["last_response_type" := CStr "parameter_validation_failed"]>
                          (<["missing_parameters" := CStrList missing_params]>
                          (<["execution_blocked" := CBool true]> dialog_context))))))
    | [] =>
        let tool_execution_order := ctx_batches dialog_context "tool_execution_order" in
        let current_batch := ctx_int dialog_context "current_tool_batch" 0 in
        let completed := ctx_list dialog_context "completed_tools" in
        if current_batch >=? Z.of_nat (length tool_execution_order) then
          Some (mkCommand supervisor
                  (mkUpdate None None None None None None
                     (Some (<["all_tools_completed" := CBool true]> dialog_context))))
        else
          current_batch_tools ← py_index tool_execution_order current_batch;
          let acc := foldl (run_tool parameters) (BatchAcc ∅ true completed)
                           current_batch_tools in
          let all_results := batch_results acc ∪ tool_results state in
          let next_batch := if batch_success acc then current_batch + 1 else current_batch in
          Some (mkCommand supervisor
                  (mkUpdate None None None None None (Some all_results)
                     (Some (<["batch_execution_success" := CBool (batch_success acc)]>
                            (<["completed_tools" := CStrList (completed_tools acc)]>
                            (<["current_tool_batch" := CInt next_batch]>
                               dialog_context))))))
    end.

End Executor.

(** The functions of [tools/travel_tools.py] by import path.  Their bodies
    build mock result maps from literals; [mock_body] stands for them. *)
Definition travel_tools (mock_body : string → gmap string value → py_result)
           (path : string) : option py_function :=
  if String.eqb path "travel_tools.search_flights" then
    Some (PyFunction "search_flights" ["origin"; "destination"; "date"]
                     (mock_body "search_flights"))
  else if String.eqb path "travel_tools.book_flight" then
    Some (PyFunction "book_flight" ["origin"; "destination"; "date"]
                     (mock_body "book_flight"))
  else if String.eqb path "travel_tools.book_hotel" then
    Some (PyFunction "book_hotel" ["city"; "days"] (mock_body "book_hotel"))
  else if String.eqb path "travel_tools.search_hotels" then
    Some (PyFunction "search_hotels" ["destination"; "days"] (mock_body "search_hotels"))
  else if String.eqb path "travel_tools.get_weather" then
    Some (PyFunction "get_weather" ["destination"; "date"] (mock_body "get_weather"))
  else None.

(** ** Response composer ([GenerationAgent]) *)

(** [s.replace('_', ' ')] *)
Fixpoint replace_underscores (s : string) : string :=
  match s with
  | EmptyString => EmptyString
  | String c s' =>
      String (if Ascii.eqb c "_"%char then " "%char else c) (replace_underscores s')
  end.

Definition result_has_error (result : gmap string value) : bool :=
  truthy_get result "error"
  || negb (match result !! "success" with Some v => truthy v | None => true end).

Definition has_errors (tool_results : gmap string (gmap string value)) : bool :=
  existsb result_has_error (map_to_list tool_results).*2.

(** [messages and messages[-1].get("role") == r] *)
Definition last_role_is (msgs : list message) (r : string) : bool :=
  match last msgs with
  | Some m => String.eqb (role m) r
  | None => false
  end.

(** [llm_text] is the text the model answers with, or [None] when the call
    raises.  A missing intent makes [intent.replace] raise. *)
Definition _generate_response_from_results (llm_text : option string) (intent : option string)
           (tool_results : gmap string (gmap string value)) : option string :=
  intent ← intent;
  Some (match llm_text with
        | Some text => text
        | None =>
            if has_errors tool_results then
              "I encountered some issues with your " +:+ replace_underscores intent
                +:+ " request. Please try again."
            else
              "Great! I've completed your " +:+ replace_underscores intent +:+ " request."
        end).

(** The result is [None] when the call raises. *)
Definition GenerationAgent_call (llm_text : option string) (state : DialogState)
  : option Command :=
  let messages := messages state in
  if last_role_is messages "assistant" then Some (mkCommand END no_update)
  else
      if dict_nonempty (tool_results state) then
        response ← _generate_response_from_results llm_text (current_intent state)
                                                   (tool_results state);
        let next_destination :=
          if ctx_flag (dialog_context state) "all_tools_completed" then END else supervisor in
        Some (mkCommand next_destination
                (mkUpdate (Some (messages ++ [Message "assistant" response]))
                   None None None None None None))
      else
        response ← llm_text;
        Some (mkCommand supervisor
                (mkUpdate (Some (messages ++ [Message "assistant" response]))
                   None None None None None None)).

(** ** The dialog graph and the chat loop ([main.py]) *)

(** What the language model answers at one hop of the graph: to intent
    detection, to parameter extraction and to response generation. *)
Record Oracle : Type := mkOracle {
  o_intent : option string;
  o_extract : option (gmap string value);
  o_text : option string
}.

Section Graph.

Variable set_order : list string → list string.
Variable load_function : string → option py_function.
Variable llm : nat → Oracle.   (* indexed by hop *)

Definition call_node (n : node) (hop : nat) (state : DialogState) : option Command :=
  match n with
  | supervisor => Some (SupervisorAgent_call (o_intent (llm hop)) state)
  | tool_choosing => ToolChoosingAgent_call set_order state
  | input_parameter => Some (InputParameterAgent_call (o_extract (llm hop)) state)
  | tool_executing => ToolExecutingAgent_call load_function state
  | generation => GenerationAgent_call (o_text (llm hop)) state
  | END => None
  end.

(** [app.invoke]: nodes are called from [n] on until one routes to the end
    node; the result is the final state together with the nodes that ran.
    [None] when a node raises or the hop budget is spent. *)
Fixpoint run_graph (fuel hop : nat) (n : node) (state : DialogState)
  : option (list node * DialogState) :=
  match n with
  | END => Some ([], state)
  | _ =>
      match fuel with
      | O => None
      | S fuel' =>
          cmd ← call_node n hop state;
          '(trace, final) ← run_graph fuel' (S hop) (goto cmd)
                                      (apply_update state (update cmd));
          Some (n :: trace, final)
      end
  end.

Definition recursion_limit : nat := 50.

Definition invoke (hop : nat) (state : DialogState) : option (list node * DialogState) :=
  run_graph recursion_limit hop supervisor state.

End Graph.

(** The state handed to the graph for the first message of a session. *)
Definition initial_state (user_input : string) : DialogState :=
  mkState [Message "user" user_input] None [] ∅ [] ∅
          {["last_response_type" := CStr "user_input"]}.

(** The state handed to the graph for a later message. *)
Definition next_user_input (user_input : string) (state : DialogState) : DialogState :=
  mkState (messages state ++ [Message "user" user_input])
          (current_intent state) (paused_intents state) (extracted_parameters state)
          (selected_tools state) (tool_results state)
          (<["last_response_type" := CStr "user_input"]>
           (<["needs_clarification" := CBool false]> (dialog_context state))).

(** * Theorems *)

(** ** Intent switch *)

Lemma apply_no_update (s : DialogState) : apply_update s no_update = s.
Proof. by destruct s. Qed.

Lemma filter_out_then_in {A} (p : A → bool) (l : list A) :
  List.filter p (List.filter (λ x, negb (p x)) l) = [].
Proof.
  induction l as [|x l IH]; [done|]. simpl.
  destruct (p x) eqn:E; simpl; [done|]. by rewrite E.
Qed.

Lemma filter_other_kept {A} (p q : A → bool) (l : list A) :
  (∀ x, q x = true → p x = false) →
  List.filter q (List.filter (λ x, negb (p x)) l) = List.filter q l.
Proof.
  intros Hpq. induction l as [|x l IH]; [done|]. simpl.
  destruct (p x) eqn:E; simpl.
  - destruct (q x) eqn:Eq; [|done]. apply Hpq in Eq. congruence.
  - destruct (q x); by rewrite IH.
Qed.

(** The entries of [paused_intents] recorded for [intent]. *)
Definition paused_for (intent : string) (paused : list paused_intent) : list paused_intent :=
  List.filter (λ pi, String.eqb (pi_intent pi) intent) paused.

(** C5. A confirmed switch from intent A to intent B records A's parameters
    and selected tools in [paused_intents], where A then appears exactly once
    whatever was recorded for it before; [extracted_parameters],
    [selected_tools] and [tool_results] are empty, [retry_counts] is empty,
    [current_intent] is B, and control goes to tool choosing. *)
Theorem execute_intent_switch_state (s : DialogState) (A B : string) :
  let cmd := _execute_intent_switch s A B in
  let s' := apply_update s (update cmd) in
  let saved :=
    PausedIntent A (extracted_parameters s) (selected_tools s) "parameter_collection" in
  saved ∈ paused_intents s'
  ∧ paused_for A (paused_intents s') = [saved]
  ∧ extracted_parameters s' = ∅
  ∧ selected_tools s' = []
  ∧ tool_results s' = ∅
  ∧ dialog_context s' !! "retry_counts" = Some (CCounts ∅)
  ∧ current_intent s' = Some B
  ∧ goto cmd = tool_choosing.
Proof.
  simpl. repeat split.
  - apply elem_of_app. right. apply list_elem_of_singleton. done.
  - unfold paused_for. rewrite List.filter_app, filter_out_then_in. simpl.
    by rewrite String.eqb_refl.
Qed.

(** The reading of C2: an entry saved for the target intent is restored and
    leaves [paused_intents]. *)
Definition switch_resumes (s : DialogState) (A B : string) : Prop :=
  ∀ entry, entry ∈ paused_intents s → pi_intent entry = B →
    let s' := apply_update s (update (_execute_intent_switch s A B)) in
    extracted_parameters s' = pi_parameters entry
    ∧ selected_tools s' = pi_tools entry
    ∧ paused_for B (paused_intents s') = [].

(** A session that paused [book_hotel] with a destination already collected
    and is now working on [book_flight]. *)
Definition paused_hotel_session : DialogState :=
  mkState [Message "user" "book hotel"; Message "assistant" "Would you like to switch?";
           Message "user" "yes"]
          (Some "book_flight")
          [PausedIntent "book_hotel" {["destination" := VStr "Paris"]}
                        ["search_hotels"; "book_hotel"] "parameter_collection"]
          {["origin" := VStr "NYC"]}
          ["search_flights"; "book_flight"]
          ∅
          {["awaiting_confirmation" := CConfirm "intent_switch" "book_flight" "book_hotel"]}.

(** C2, refuted: switching to the paused [book_hotel] starts from empty
    parameters. *)
Lemma switch_does_not_resume :
  ¬ switch_resumes paused_hotel_session "book_flight" "book_hotel".
Proof.
  intros H.
  destruct (H (PausedIntent "book_hotel" {["destination" := VStr "Paris"]}
                 ["search_hotels"; "book_hotel"] "parameter_collection"))
    as (Hparams & _ & _).
  - apply list_elem_of_singleton. reflexivity.
  - reflexivity.
  - simpl in Hparams.
    apply (f_equal (λ m : gmap string value, m !! "destination")) in Hparams.
    vm_compute in Hparams. discriminate.
Qed.

(** C2, amended. A confirmed switch to an intent B that has an entry in
    [paused_intents] starts B with empty parameters and no selected tools,
    and leaves B's entry in [paused_intents] as it was. *)
Theorem switch_restarts_target (s : DialogState) (A B : string) :
  A ≠ B →
  let s' := apply_update s (update (_execute_intent_switch s A B)) in
  extracted_parameters s' = ∅
  ∧ selected_tools s' = []
  ∧ paused_for B (paused_intents s') = paused_for B (paused_intents s).
Proof.
  intros Hne. simpl. repeat split.
  unfold paused_for. rewrite List.filter_app. simpl.
  assert (String.eqb A B = false) as -> by by apply String.eqb_neq.
  rewrite app_nil_r. apply filter_other_kept.
  intros x ->%String.eqb_eq. apply String.eqb_neq. congruence.
Qed.

Lemma switch_restarts_target_witness :
  "book_flight" ≠ "book_hotel"
  ∧ paused_for "book_hotel"
      (paused_intents
         (apply_update paused_hotel_session
            (update (_execute_intent_switch paused_hotel_session "book_flight" "book_hotel"))))
    = paused_for "book_hotel" (paused_intents paused_hotel_session).
Proof.
  split; [discriminate|].
  apply (switch_restarts_target paused_hotel_session "book_flight" "book_hotel").
  discriminate.
Defined.

(** ** Response composer *)

(** C9. When the last message of the session is an assistant message, the
    composer goes to the end node with an empty update: no message is
    appended and the state is left as it is. *)
Theorem composer_passes_through (llm_text : option string) (s : DialogState) (m : message) :
  last (messages s) = Some m → role m = "assistant" →
  GenerationAgent_call llm_text s = Some (mkCommand END no_update)
  ∧ apply_update s no_update = s.
Proof.
  intros Hlast Hrole. split; [|apply apply_no_update].
  unfold GenerationAgent_call, last_role_is. by rewrite Hlast, Hrole.
Qed.

(** A session in which the slot filler has just asked for a detail. *)
Definition clarified_session : DialogState :=
  mkState [Message "user" "Book a hotel";
           Message "assistant" "I need one more detail: Which city do you need a hotel in?"]
          (Some "book_hotel") [] {["days" := VInt 3]}
          ["search_hotels"; "book_hotel"]
          ∅
          (list_to_map [("required_parameters", CStrList ["destination"; "days"]);
                        ("retry_counts", CCounts {["destination" := 1]});
                        ("last_response_type", CStr "clarification")]).

Lemma composer_passes_through_witness :
  GenerationAgent_call (Some "Sure!") clarified_session = Some (mkCommand END no_update)
  ∧ apply_update clarified_session no_update = clarified_session.
Proof.
  apply (composer_passes_through (Some "Sure!") clarified_session
           (Message "assistant" "I need one more detail: Which city do you need a hotel in?"));
    reflexivity.
Defined.

(** ** Confirmation of an intent switch *)

(** The command that asks the confirmation question again. *)
Definition reask_command (s : DialogState) : Command :=
  mkCommand END
    (mkUpdate
       (Some (messages s ++
              [Message "assistant"
                 "Please respond with 'yes' to switch or 'no' to continue with the current task."]))
       None None None None None None).

(** A pending proposal answered with "definitely not". *)
Definition definitely_not_session : DialogState :=
  mkState [Message "user" "Book a flight from NYC";
           Message "assistant" "Would you like me to pause?";
           Message "user" "definitely not"]
          (Some "book_flight") [] {["origin" := VStr "NYC"]}
          ["search_flights"; "book_flight"] ∅
          {["awaiting_confirmation" := CConfirm "intent_switch" "book_flight" "book_hotel"]}.

(** The same proposal answered with "yes, thanks". *)
Definition yes_thanks_session : DialogState :=
  mkState [Message "user" "Book a flight from NYC";
           Message "assistant" "Would you like me to pause?";
           Message "user" "yes, thanks"]
          (Some "book_flight") [] {["origin" := VStr "NYC"]}
          ["search_flights"; "book_flight"] ∅
          {["awaiting_confirmation" := CConfirm "intent_switch" "book_flight" "book_hotel"]}.

(** The reading of C10: with a proposal pending, a reply that contains one
    of the affirmative words makes the proposed intent the current one. *)
Definition affirmative_reply_switches (s : DialogState) (B : string) : Prop :=
  ∀ m llm_answer,
    last (messages s) = Some m → role m = "user" →
    any_in affirmative_words (strip (lower (content m))) = true →
    current_intent (apply_update s (update (SupervisorAgent_call llm_answer s))) = Some B.

(** C10, refuted: "yes, thanks" contains "yes" and "y", yet the router ends
    the conversation on the farewell word and the intent stays as it was. *)
Lemma farewell_reply_does_not_switch :
  ¬ affirmative_reply_switches yes_thanks_session "book_hotel".
Proof.
  intros H.
  specialize (H (Message "user" "yes, thanks") None eq_refl eq_refl eq_refl).
  vm_compute in H. discriminate.
Qed.

(** C10, amended. With a proposal from A to B pending and a user reply as
    last message, the router first looks for a farewell: if [end_conversation]
    is set or the lower-cased reply contains "bye", "goodbye", "exit", "quit",
    "thanks" or "thank you", the turn ends with no update, so nothing is
    switched and nothing is asked.  Otherwise the lower-cased, stripped reply
    is affirmative exactly when it contains one of "yes", "y", "switch",
    "pause", tested before "no", "n", "continue", "keep"; an affirmative reply
    sends control to tool choosing with B as current intent, A's parameters
    and tools appended to the paused intents, parameters, tools and results
    emptied and the proposal cleared; the question is asked again, with the
    proposal and the rest of the context untouched, exactly when the reply
    contains none of the eight. *)
Theorem confirmation_reply_routes (llm_answer : option string) (s : DialogState)
        (kind A B : string) (m : message) :
  dialog_context s !! "awaiting_confirmation" = Some (CConfirm kind A B) →
  last (messages s) = Some m → role m = "user" →
  let reply := strip (lower (content m)) in
  let farewell :=
    ctx_flag (dialog_context s) "end_conversation"
    || any_in goodbye_words (lower (content m)) in
  let affirmative :=
    contains "yes" reply || contains "y" reply
    || contains "switch" reply || contains "pause" reply in
  let negative :=
    contains "no" reply || contains "n" reply
    || contains "continue" reply || contains "keep" reply in
  let cmd := SupervisorAgent_call llm_answer s in
  let s' := apply_update s (update cmd) in
  (farewell = true → cmd = mkCommand END no_update)
  ∧ (farewell = false →
     (affirmative = true ↔ goto cmd = tool_choosing)
     ∧ (affirmative = true →
        current_intent s' = Some B
        ∧ paused_intents s'
          = List.filter (λ pi, negb (String.eqb (pi_intent pi) A)) (paused_intents s)
            ++ [PausedIntent A (extracted_parameters s) (selected_tools s)
                             "parameter_collection"]
        ∧ extracted_parameters s' = ∅
        ∧ selected_tools s' = []
        ∧ tool_results s' = ∅
        ∧ dialog_context s' !! "awaiting_confirmation" = Some CNone)
     ∧ (affirmative = false ∧ negative = false ↔ cmd = reask_command s)
     ∧ dialog_context (apply_update s (update (reask_command s))) = dialog_context s).
Proof.
  intros Hwait Hlast Hrole. cbv zeta.
  assert (Hend : _should_end_conversation s
                 = ctx_flag (dialog_context s) "end_conversation"
                   || any_in goodbye_words (lower (content m))).
  { unfold _should_end_conversation. rewrite Hlast.
    by destruct (ctx_flag (dialog_context s) "end_conversation"). }
  assert (Haff : any_in affirmative_words (strip (lower (content m)))
                 = contains "yes" (strip (lower (content m)))
                   || contains "y" (strip (lower (content m)))
                   || contains "switch" (strip (lower (content m)))
                   || contains "pause" (strip (lower (content m)))).
  { unfold any_in, affirmative_words. cbn [existsb].
    by rewrite orb_false_r, !orb_assoc. }
  assert (Hneg : any_in negative_words (strip (lower (content m)))
                 = contains "no" (strip (lower (content m)))
                   || contains "n" (strip (lower (content m)))
                   || contains "continue" (strip (lower (content m)))
                   || contains "keep" (strip (lower (content m)))).
  { unfold any_in, negative_words. cbn [existsb].
    by rewrite orb_false_r, !orb_assoc. }
  rewrite <- Haff, <- Hneg.
  unfold SupervisorAgent_call. rewrite Hend.
  destruct (ctx_flag (dialog_context s) "end_conversation"
            || any_in goodbye_words (lower (content m))).
  { split; [done|discriminate]. }
  split; [discriminate|]. intros _. rewrite Hwait.
  unfold _handle_intent_switch_confirmation. rewrite Hlast, Hrole.
  simpl negb. cbv iota.
  destruct (any_in affirmative_words (strip (lower (content m)))).
  - split; [done|]. split; [intros _; repeat split|]. split; [|done].
    split; [by intros [? _]|]. intros H. apply (f_equal goto) in H. discriminate.
  - split; [|split; [discriminate|]].
    { split; [discriminate|].
      destruct (any_in negative_words (strip (lower (content m)))); discriminate. }
    split; [|done].
    destruct (any_in negative_words (strip (lower (content m)))); [|done].
    split; [by intros [_ ?]|]. intros H. apply (f_equal goto) in H. discriminate.
Qed.

Lemma confirmation_reply_routes_witness :
  let s' := apply_update definitely_not_session
              (update (SupervisorAgent_call None definitely_not_session)) in
  goto (SupervisorAgent_call None definitely_not_session) = tool_choosing
  ∧ current_intent s' = Some "book_hotel"
  ∧ paused_intents s'
    = [PausedIntent "book_flight" {["origin" := VStr "NYC"]}
                    ["search_flights"; "book_flight"] "parameter_collection"].
Proof.
  destruct (confirmation_reply_routes None definitely_not_session
              "intent_switch" "book_flight" "book_hotel" (Message "user" "definitely not"))
    as [_ Hroute]; [reflexivity|reflexivity|reflexivity|].
  destruct Hroute as (Hgoto & Heffect & _ & _); [reflexivity|].
  destruct Heffect as (Hintent & Hpaused & _); [reflexivity|].
  split; [by apply Hgoto|]. split; [exact Hintent | exact Hpaused].
Defined.

(** Through the router: with a proposal from A to B pending, a user reply
    that holds no farewell word and one of the affirmative words runs
    [_execute_intent_switch]. *)
Lemma supervisor_confirmed_switch (llm_answer : option string) (s : DialogState)
      (kind A B : string) (m : message) :
  _should_end_conversation s = false →
  dialog_context s !! "awaiting_confirmation" = Some (CConfirm kind A B) →
  last (messages s) = Some m → role m = "user" →
  any_in affirmative_words (strip (lower (content m))) = true →
  SupervisorAgent_call llm_answer s = _execute_intent_switch s A B.
Proof.
  intros Hend Hwait Hlast Hrole Hyes.
  unfold SupervisorAgent_call. rewrite Hend, Hwait.
  unfold _handle_intent_switch_confirmation. rewrite Hlast, Hrole. simpl negb.
  cbv iota. by rewrite Hyes.
Qed.

(** The router itself, on that session, runs the switch. *)
Example definitely_not_switches (llm_answer : option string) :
  SupervisorAgent_call llm_answer definitely_not_session
  = _execute_intent_switch definitely_not_session "book_flight" "book_hotel".
Proof. reflexivity. Qed.

(** ** Slot filler *)

(** The names used below for the pieces of a slot-filler turn. *)
Definition required_of (s : DialogState) : list string :=
  ctx_list (dialog_context s) "required_parameters".

Definition extracted_of (llm_result : option (gmap string value)) (s : DialogState)
  : gmap string value :=
  _extract_parameters llm_result (current_intent s) (required_of s).

Definition updated_of (llm_result : option (gmap string value)) (s : DialogState)
  : gmap string value :=
  merge_parameters (extracted_parameters s) (extracted_of llm_result s).

Definition still_missing (llm_result : option (gmap string value)) (s : DialogState)
  : list string :=
  missing_in (required_of s) (updated_of llm_result s).

Definition retries_of (s : DialogState) (param : string) : Z :=
  default 0 (ctx_counts (dialog_context s) "retry_counts" !! param).

Definition has_user_message (s : DialogState) : Prop :=
  truthy_str (latest_user_message (messages s)) = true.

(** The three commands a turn with a user message can end in. *)
Definition progress_command (llm_result : option (gmap string value)) (s : DialogState)
  : Command :=
  mkCommand supervisor
    (mkUpdate None None None (Some (updated_of llm_result s)) None None
       (Some (<["last_response_type" := CStr "parameter_progress"]>
              (<["needs_clarification" := CBool false]>
              (<["last_missing_params" := CStrList (still_missing llm_result s)]>
                 (dialog_context s)))))).

Definition failure_command (llm_result : option (gmap string value)) (s : DialogState)
           (param : string) : Command :=
  mkCommand generation
    (mkUpdate (Some (messages s ++ [Message "assistant" (failure_msg param)]))
       None None (Some (updated_of llm_result s)) None None
       (Some (<["last_response_type" := CStr "parameter_failure"]>
              (<["failed_parameter" := CStr param]>
              (<["parameter_collection_failed" := CBool true]> (dialog_context s)))))).

Definition clarification_command (llm_result : option (gmap string value)) (s : DialogState)
  : Command :=
  mkCommand generation
    (mkUpdate
       (Some (messages s ++
              [Message "assistant"
                 (_generate_clarification_question (current_intent s)
                                                   (still_missing llm_result s))]))
       None None (Some (updated_of llm_result s)) None None
       (Some (<["last_response_type" := CStr "clarification"]>
              (<["retry_counts" :=
                   CCounts (increment_retries (ctx_counts (dialog_context s) "retry_counts")
                                              (still_missing llm_result s))]>
              (<["last_missing_params" := CStrList (still_missing llm_result s)]>
              (<["needs_clarification" := CBool true]> (dialog_context s))))))).

(** The first still-missing parameter whose retry count has reached the
    ceiling, if any. *)
Definition exhausted_parameter (llm_result : option (gmap string value)) (s : DialogState)
  : option string :=
  List.find (λ param, retries_of s param >=? ctx_int (dialog_context s) "max_retries" 5)
            (still_missing llm_result s).

(** The decision structure of [InputParameterAgent.__call__]. *)
Lemma InputParameterAgent_call_cases llm_result s :
  has_user_message s →
  InputParameterAgent_call llm_result s =
    match still_missing llm_result s with
    | [] => progress_command llm_result s
    | _ :: _ =>
        match exhausted_parameter llm_result s with
        | Some param => failure_command llm_result s param
        | None =>
            if (0 <? size (extracted_of llm_result s))%nat
            then progress_command llm_result s
            else clarification_command llm_result s
        end
    end.
Proof.
  unfold has_user_message. intros Hmsg.
  unfold InputParameterAgent_call. rewrite Hmsg. simpl.
  reflexivity.
Qed.

Lemma slot_filler_updates_params llm_result s :
  has_user_message s →
  u_extracted_parameters (update (InputParameterAgent_call llm_result s))
  = Some (updated_of llm_result s).
Proof.
  intros Hmsg. rewrite InputParameterAgent_call_cases by done.
  destruct (still_missing llm_result s); [done|].
  destruct (exhausted_parameter llm_result s); [done|].
  by destruct (0 <? size _)%nat.
Qed.

(** The reading of C6: a returned key that is not among the turn's missing
    parameters leaves the parameter map as it was at that key. *)
Definition discards_outside_missing (result : gmap string value) (s : DialogState) : Prop :=
  ∀ k updated,
    is_Some (result !! k) →
    k ∉ missing_in (required_of s) (extracted_parameters s) →
    u_extracted_parameters (update (InputParameterAgent_call (Some result) s)) = Some updated →
    updated !! k = extracted_parameters s !! k.

(** A flight session that knows the origin; the user now names another one. *)
Definition origin_known_session : DialogState :=
  mkState [Message "user" "Book a flight from NYC";
           Message "assistant" "I need two more details: Where would you like to fly to? and What date would you like to travel?";
           Message "user" "Make it from Boston"]
          (Some "book_flight") [] {["origin" := VStr "NYC"]}
          ["search_flights"; "book_flight"] ∅
          (list_to_map [("required_parameters", CStrList ["origin"; "destination"; "date"]);
                        ("tool_execution_order",
                           CBatches [["search_flights"]; ["book_flight"]]);
                        ("current_tool_batch", CInt 0);
                        ("completed_tools", CStrList [])]).

(** C6, refuted: a returned value for the already-filled [origin] replaces
    the stored one. *)
Lemma filled_parameter_overwritten :
  ¬ discards_outside_missing {["origin" := VStr "Boston"]} origin_known_session.
Proof.
  intros H.
  specialize (H "origin" (updated_of (Some {["origin" := VStr "Boston"]}) origin_known_session)).
  assert (updated_of (Some {["origin" := VStr "Boston"]}) origin_known_session !! "origin"
          = extracted_parameters origin_known_session !! "origin") as Heq.
  { apply H.
    - by eexists.
    - vm_compute. intros Hin. apply list_elem_of_In in Hin. simpl in Hin.
      destruct Hin as [Hin|[Hin|[]]]; discriminate.
    - apply slot_filler_updates_params. reflexivity. }
  vm_compute in Heq. discriminate.
Qed.

(** C6, amended. Every returned key outside [required_parameters] is
    discarded and leaves the parameters as they were; a returned key that is
    a required parameter is merged, also when that parameter already had a
    value. *)
Theorem slot_filler_keeps_required_keys (result : gmap string value) (s : DialogState) :
  has_user_message s →
  ∃ updated,
    u_extracted_parameters (update (InputParameterAgent_call (Some result) s)) = Some updated
    ∧ (∀ k, k ∉ required_of s → updated !! k = extracted_parameters s !! k)
    ∧ (∀ k v, is_Some (current_intent s ≫= get_intent_config INTENTS) →
              k ∈ required_of s → result !! k = Some v → updated !! k = Some v).
Proof.
  intros Hmsg. exists (updated_of (Some result) s).
  split; [by apply slot_filler_updates_params|].
  unfold updated_of, merge_parameters, extracted_of, _extract_parameters.
  split.
  - intros k Hk. apply lookup_union_r.
    destruct (current_intent s ≫= get_intent_config INTENTS).
    + apply map_lookup_filter_None_2.
      right. intros v _ Hin. by apply Hk.
    + apply lookup_empty.
  - intros k v [cfg Hcfg] Hk Hres. rewrite Hcfg.
    apply lookup_union_Some_l. by apply map_lookup_filter_Some_2.
Qed.

Lemma slot_filler_keeps_required_keys_witness :
  ∃ updated,
    u_extracted_parameters
      (update (InputParameterAgent_call (Some {["origin" := VStr "Boston"]})
                                        origin_known_session)) = Some updated
    ∧ (∀ k, k ∉ required_of origin_known_session →
            updated !! k = extracted_parameters origin_known_session !! k)
    ∧ (∀ k v, is_Some (current_intent origin_known_session ≫= get_intent_config INTENTS) →
              k ∈ required_of origin_known_session →
              ({["origin" := VStr "Boston"]} : gmap string value) !! k = Some v →
              updated !! k = Some v).
Proof.
  apply (slot_filler_keeps_required_keys {["origin" := VStr "Boston"]} origin_known_session).
  reflexivity.
Defined.

Lemma failure_is_not_a_question param intent missing :
  failure_msg param ≠ _generate_clarification_question intent missing.
Proof.
  unfold failure_msg, _generate_clarification_question.
  destruct missing as [|a [|b [|c l]]]; simpl; discriminate.
Qed.

Lemma app_singleton_neq {A} (l : list A) (x : A) : l ≠ l ++ [x].
Proof.
  intros H. apply (f_equal length) in H. rewrite length_app in H. simpl in H. lia.
Qed.

(** C7. On a turn in which extraction yields at least one accepted value,
    [retry_counts] is left as it was and no clarification question is
    appended to the messages (the messages are unchanged, or end with the
    terminal failure notice), also when parameters are still missing; and a
    turn that changes [retry_counts] is one on which extraction accepted
    nothing. *)
Theorem progress_leaves_retry_counts (llm_result : option (gmap string value))
        (s : DialogState) :
  has_user_message s →
  let cmd := InputParameterAgent_call llm_result s in
  let s' := apply_update s (update cmd) in
  ((0 <? size (extracted_of llm_result s))%nat = true →
     dialog_context s' !! "retry_counts" = dialog_context s !! "retry_counts"
     ∧ cmd ≠ clarification_command llm_result s
     ∧ (∀ intent missing,
          messages s' ≠ messages s ++
            [Message "assistant" (_generate_clarification_question intent missing)])
     ∧ (messages s' = messages s
        ∨ ∃ param, messages s' = messages s ++ [Message "assistant" (failure_msg param)]))
  ∧ (dialog_context s' !! "retry_counts" ≠ dialog_context s !! "retry_counts" →
     size (extracted_of llm_result s) = 0%nat).
Proof.
  intros Hmsg. simpl. rewrite InputParameterAgent_call_cases by done.
  assert (Hprog :
    let s' := apply_update s (update (progress_command llm_result s)) in
    dialog_context s' !! "retry_counts" = dialog_context s !! "retry_counts"
    ∧ progress_command llm_result s ≠ clarification_command llm_result s
    ∧ (∀ intent missing,
         messages s' ≠ messages s ++
           [Message "assistant" (_generate_clarification_question intent missing)])
    ∧ (messages s' = messages s
       ∨ ∃ param, messages s' = messages s ++ [Message "assistant" (failure_msg param)])).
  { simpl. split; [by rewrite !lookup_insert_ne|].
    split; [intros H; apply (f_equal goto) in H; discriminate|].
    split; [intros; apply app_singleton_neq | by left]. }
  assert (Hfail : ∀ param,
    let s' := apply_update s (update (failure_command llm_result s param)) in
    dialog_context s' !! "retry_counts" = dialog_context s !! "retry_counts"
    ∧ failure_command llm_result s param ≠ clarification_command llm_result s
    ∧ (∀ intent missing,
         messages s' ≠ messages s ++
           [Message "assistant" (_generate_clarification_question intent missing)])
    ∧ (messages s' = messages s
       ∨ ∃ param, messages s' = messages s ++ [Message "assistant" (failure_msg param)])).
  { intros param. simpl. split; [by rewrite !lookup_insert_ne|].
    split.
    { intros H. apply (f_equal (λ c, u_messages (update c))) in H. simpl in H.
      injection H as H. apply app_inv_head in H. injection H as H.
      by apply failure_is_not_a_question in H. }
    split; [|right; by eexists].
    intros intent missing H. apply app_inv_head in H. injection H as H.
    by apply failure_is_not_a_question in H. }
  destruct (still_missing llm_result s) as [|p ps] eqn:Emiss.
  { split; [intros _; apply Hprog|]. intros H. by destruct H; apply Hprog. }
  destruct (exhausted_parameter llm_result s) as [param|].
  { split; [intros _; apply Hfail|]. intros H. by destruct H; apply Hfail. }
  destruct (0 <? size (extracted_of llm_result s))%nat eqn:Esz.
  { split; [intros _; apply Hprog|]. intros H. by destruct H; apply Hprog. }
  split; [discriminate|]. intros _. apply Nat.ltb_ge in Esz. lia.
Qed.

(** The hotel session after the first clarification; the user now gives the
    number of days only. *)
Definition days_given_session : DialogState :=
  mkState [Message "user" "Book a hotel";
           Message "assistant" "I need two more details: Which city do you need a hotel in? and How many days will you be staying?";
           Message "user" "for 3 days"]
          (Some "book_hotel") [] ∅
          ["search_hotels"; "book_hotel"] ∅
          (list_to_map [("required_parameters", CStrList ["destination"; "days"]);
                        ("retry_counts", CCounts (list_to_map [("destination", 1); ("days", 1)]));
                        ("last_missing_params", CStrList ["destination"; "days"]);
                        ("last_response_type", CStr "user_input")]).

Lemma progress_leaves_retry_counts_witness :
  let cmd := InputParameterAgent_call (Some {["days" := VInt 3]}) days_given_session in
  let s' := apply_update days_given_session (update cmd) in
  still_missing (Some {["days" := VInt 3]}) days_given_session = ["destination"]
  ∧ dialog_context s' !! "retry_counts" = dialog_context days_given_session !! "retry_counts"
  ∧ messages s' = messages days_given_session.
Proof.
  split; [reflexivity|].
  destruct (progress_leaves_retry_counts (Some {["days" := VInt 3]}) days_given_session)
    as [Hprogress _]; [reflexivity|].
  destruct Hprogress as (Hcounts & _ & _ & _); [reflexivity|].
  split; [exact Hcounts | reflexivity].
Defined.

(** *** The retry ceiling *)

Lemma increment_retries_lookup missing : ∀ (counts : gmap string Z) p,
  NoDup missing →
  default 0 (increment_retries counts missing !! p)
  = default 0 (counts !! p) + (if bool_decide (p ∈ missing) then 1 else 0).
Proof.
  unfold increment_retries.
  induction missing as [|a l IH]; intros counts p Hnd.
  { case_bool_decide as Hin; [by apply elem_of_nil in Hin|]. simpl. lia. }
  apply NoDup_cons in Hnd as [Ha Hl].
  change (foldl ?f counts (a :: l)) with (foldl f (f counts a) l).
  rewrite IH by done.
  destruct (decide (p = a)) as [->|Hne].
  - rewrite lookup_insert_eq. simpl.
    rewrite (bool_decide_eq_false_2 (a ∈ l)) by done.
    rewrite (bool_decide_eq_true_2 (a ∈ a :: l)) by apply list_elem_of_here. lia.
  - rewrite lookup_insert_ne by done.
    destruct (decide (p ∈ l)).
    + rewrite !bool_decide_eq_true_2; [done|by apply list_elem_of_further|done].
    + rewrite !bool_decide_eq_false_2; [done| |done].
      intros [?|?]%elem_of_cons; done.
Qed.

Lemma missing_in_NoDup required params : NoDup required → NoDup (missing_in required params).
Proof.
  intros H. apply NoDup_ListNoDup, List.NoDup_filter, NoDup_ListNoDup, H.
Qed.

Lemma exhausted_parameter_Some llm_result s param :
  exhausted_parameter llm_result s = Some param →
  param ∈ still_missing llm_result s
  ∧ ctx_int (dialog_context s) "max_retries" 5 ≤ retries_of s param.
Proof.
  intros [Hin Hge]%find_some. split; [by apply list_elem_of_In|]. lia.
Qed.

Lemma exhausted_parameter_None llm_result s :
  exhausted_parameter llm_result s = None →
  ∀ p, p ∈ still_missing llm_result s →
       retries_of s p < ctx_int (dialog_context s) "max_retries" 5.
Proof.
  intros Hnone p Hp%list_elem_of_In.
  pose proof (find_none _ _ Hnone p Hp) as H. simpl in H. lia.
Qed.

(** C4, amended. With [max_retries = 5] and a parameter B still missing
    after the merge: on a turn on which every still-missing parameter has
    fewer than 5 retries and extraction accepted nothing, a clarification
    question is emitted and B's retry count goes up by one; on a turn on
    which B already has 5 retries the terminal failure is returned for a
    still-missing parameter with 5 retries, whether or not extraction
    accepted a value; and the failure is never returned for a parameter with
    fewer than 5 retries. *)
Theorem retry_ceiling (llm_result : option (gmap string value)) (s : DialogState)
        (B : string) :
  has_user_message s →
  ctx_int (dialog_context s) "max_retries" 5 = 5 →
  B ∈ still_missing llm_result s →
  let cmd := InputParameterAgent_call llm_result s in
  ((∀ p, p ∈ still_missing llm_result s → retries_of s p < 5) →
   size (extracted_of llm_result s) = 0%nat →
   cmd = clarification_command llm_result s
   ∧ (NoDup (required_of s) →
      retries_of (apply_update s (update cmd)) B = retries_of s B + 1))
  ∧ (5 ≤ retries_of s B →
     ∃ param, param ∈ still_missing llm_result s ∧ 5 ≤ retries_of s param
              ∧ cmd = failure_command llm_result s param)
  ∧ (∀ param, cmd = failure_command llm_result s param →
              param ∈ still_missing llm_result s ∧ 5 ≤ retries_of s param).
Proof.
  intros Hmsg Hmax HB. simpl. rewrite InputParameterAgent_call_cases by done.
  destruct (still_missing llm_result s) as [|p ps] eqn:Emiss.
  { by apply elem_of_nil in HB. }
  rewrite <- Emiss in *.
  destruct (exhausted_parameter llm_result s) as [param|] eqn:Eex.
  - apply exhausted_parameter_Some in Eex as [Hin Hge]. rewrite Hmax in Hge.
    split; [|split].
    + intros Hlt _. specialize (Hlt param Hin). lia.
    + intros _. by exists param.
    + intros param' H.
      apply (f_equal (λ c, u_dialog_context (update c) ≫= (.!! "failed_parameter"))) in H.
      simpl in H. simplify_map_eq. done.
  - pose proof (exhausted_parameter_None _ _ Eex) as Hlt. rewrite Hmax in Hlt.
    split; [|split].
    + intros _ Hsz. rewrite Hsz. simpl. split; [done|].
      intros Hnd. unfold retries_of at 1. simpl.
      unfold ctx_counts at 1.
      rewrite lookup_insert_ne, lookup_insert_eq by done.
      rewrite increment_retries_lookup by by apply missing_in_NoDup.
      by rewrite bool_decide_eq_true_2.
    + intros Hge. specialize (Hlt B HB). lia.
    + intros param H. exfalso.
      destruct (0 <? size (extracted_of llm_result s))%nat.
      * apply (f_equal goto) in H. discriminate.
      * apply (f_equal (λ c, u_dialog_context (update c) ≫= (.!! "last_response_type"))) in H.
        simpl in H. simplify_map_eq.
Qed.

(** *** The hotel scenario, turn by turn *)

(** The mock tools are never reached in this scenario. *)
Definition idle_body (name : string) (kwargs : gmap string value) : py_result :=
  RDict {["status" := VStr "success"]}.

(** "Book a hotel": the model names the intent and extracts nothing. *)
Definition hotel_request_llm (hop : nat) : Oracle :=
  mkOracle (Some "book_hotel") (Some ∅) None.

(** An unrelated reply: no intent is recognised and nothing is extracted. *)
Definition unrelated_llm (hop : nat) : Oracle :=
  mkOracle (Some "general") (Some ∅) None.

(** The session after [n] turns: the request, then [n - 1] unrelated replies. *)
Fixpoint hotel_after (n : nat) : option DialogState :=
  match n with
  | O => None
  | 1%nat =>
      snd <$> invoke insertion_order (travel_tools idle_body) hotel_request_llm 0
                     (initial_state "Book a hotel")
  | S n' =>
      s ← hotel_after n';
      snd <$> invoke insertion_order (travel_tools idle_body) unrelated_llm 0
                     (next_user_input "I like turtles" s)
  end.

(** What a turn left behind: the last message, the failed parameter if a
    failure was declared, and the retry counts of the two parameters. *)
Definition turn_outcome (s : DialogState) : option message * option ctxval * Z * Z :=
  (last (messages s), dialog_context s !! "failed_parameter",
   retries_of s "destination", retries_of s "days").

Definition hotel_question : string :=
  "I need two more details: Which city do you need a hotel in? and How many days will you be staying?".

(** The reading of C4 on this scenario: the [n]th consecutive turn without
    progress returns the terminal failure for [B]. *)
Definition fails_on_turn (n : nat) (B : string) : Prop :=
  ∃ s, hotel_after n = Some s ∧ dialog_context s !! "failed_parameter" = Some (CStr B).

(** A session in which [days] has used up its retries and the user now
    gives the destination. *)
Definition days_exhausted_session : DialogState :=
  mkState [Message "user" "Book a hotel";
           Message "assistant" "I need one more detail: How many days will you be staying?";
           Message "user" "in Paris"]
          (Some "book_hotel") [] ∅
          ["search_hotels"; "book_hotel"] ∅
          (list_to_map [("required_parameters", CStrList ["destination"; "days"]);
                        ("retry_counts", CCounts {["days" := 5]});
                        ("max_retries", CInt 5)]).

(** C4, refuted. Each of the first five turns without progress ends in the
    clarification question, the fifth leaving both retry counts at 5; the
    failure comes with the sixth.  And a turn that does make progress ends in
    the failure when a parameter that is still missing has 5 retries. *)
Lemma fifth_turn_asks_again :
  (∀ B, ¬ fails_on_turn 5 B)
  ∧ turn_outcome <$> hotel_after 5
    = Some (Some (Message "assistant" hotel_question), None, 5, 5)
  ∧ turn_outcome <$> hotel_after 6
    = Some (Some (Message "assistant" (failure_msg "destination")),
            Some (CStr "destination"), 5, 5)
  ∧ (extracted_of (Some {["destination" := VStr "Paris"]}) days_exhausted_session
       = {["destination" := VStr "Paris"]}
     ∧ InputParameterAgent_call (Some {["destination" := VStr "Paris"]}) days_exhausted_session
       = failure_command (Some {["destination" := VStr "Paris"]}) days_exhausted_session "days").
Proof.
  assert (H5 : turn_outcome <$> hotel_after 5
               = Some (Some (Message "assistant" hotel_question), None, 5, 5))
    by (vm_compute; reflexivity).
  split; [|split; [exact H5|split; [vm_compute; reflexivity|split; vm_compute; reflexivity]]].
  intros B (s & Hs & Hfail). rewrite Hs in H5. simpl in H5.
  unfold turn_outcome in H5. injection H5 as _ H5 _ _. congruence.
Qed.

Lemma retry_ceiling_witness :
  InputParameterAgent_call (Some {["destination" := VStr "Paris"]}) days_exhausted_session
  = failure_command (Some {["destination" := VStr "Paris"]}) days_exhausted_session "days".
Proof.
  destruct (retry_ceiling (Some {["destination" := VStr "Paris"]}) days_exhausted_session "days")
    as (_ & Hfail & _).
  - reflexivity.
  - reflexivity.
  - apply list_elem_of_singleton. reflexivity.
  - destruct Hfail as (param & Hin & _ & Hcmd).
    + vm_compute. discriminate.
    + apply list_elem_of_singleton in Hin. by subst param.
Defined.

(** ** Batch scheduler *)

Section ForcedBatches.

Variable tools_table : gmap string tool_config.
Variable set_order : list string → list string.
Hypothesis set_order_perm : ∀ l, set_order l ≡ₚ l.

(** A tool that the readiness test rejects whatever has been scheduled
    from [universe] only ever leaves the loop in a batch of its own. *)
Lemma schedule_loop_never_ready (universe : list string) (t : string) fuel :
  (∀ eo, concat eo ⊆ universe → tool_ready tools_table eo t = false) →
  ∀ remaining eo final,
    remaining ⊆ universe → concat eo ⊆ universe →
    schedule_loop tools_table set_order fuel remaining eo = Some final →
    ∀ b, b ∈ final → t ∈ b → b ∈ eo ∨ b = [t].
Proof.
  intros Hnever. induction fuel as [|fuel IH]; intros remaining eo final Hrem Heo Hrun b Hb Ht.
  - destruct remaining; simpl in Hrun; [|discriminate].
    injection Hrun as <-. by left.
  - destruct (decide (remaining = [])) as [->|Hne].
    { simpl in Hrun. injection Hrun as <-. by left. }
    rewrite (schedule_loop_step tools_table set_order) in Hrun by done.
    pose proof (next_batch_subseteq tools_table set_order set_order_perm remaining eo) as Hsub.
    eapply IH in Hrun; [| |  |exact Hb|exact Ht].
    + destruct Hrun as [Hin|Heq]; [|by right].
      apply elem_of_app in Hin as [Hin|Hin]; [by left|].
      apply list_elem_of_singleton in Hin. subst b. right.
      eapply next_batch_forced; [done|]. by apply Hnever.
    + intros x [Hx _]%list_elem_of_difference. by apply Hrem.
    + rewrite concat_app. simpl. rewrite app_nil_r.
      intros x [Hx|Hx]%elem_of_app; [by apply Heo|]. by apply Hrem, Hsub.
Qed.

End ForcedBatches.

(** The batch of the vacation plan that holds the three searches. *)
Definition vacation_searches : list (list string) :=
  [["search_flights"; "search_hotels"; "get_weather"]].

(** C3 on the [plan_vacation] intent, whose tools and dependencies are
    acyclic.  Whatever the iteration order of the set, each of the two
    booking tools is scheduled in a batch of its own, by the stall fallback:
    the readiness test looks for the tag a tool requires among the names of
    the scheduled tools and never finds it.  Yet once the searches are
    scheduled, both bookings have every required tag produced, so the batch
    after the searches is not the set of tools whose dependencies are met. *)
Theorem vacation_bookings_forced (set_order : list string → list string) :
  (∀ l, set_order l ≡ₚ l) →
  ∃ eo, get_tool_execution_order TOOLS INTENTS set_order "plan_vacation" = Some eo
        ∧ ["book_flight"] ∈ eo ∧ ["book_hotel"] ∈ eo
        ∧ (∀ eo', tool_ready TOOLS eo' "book_flight" = true →
                  "flight_options" ∈ concat eo')
        ∧ spec_tool_ready TOOLS vacation_searches "book_flight" = true
        ∧ spec_tool_ready TOOLS vacation_searches "book_hotel" = true.
Proof.
  intros Hperm.
  set (universe := ["search_flights"; "search_hotels"; "get_weather"; "book_flight"; "book_hotel"]).
  assert (Hcfg : INTENTS !! "plan_vacation"
                 = Some (IntentConfig
                    "Plan a complete vacation with flights, hotel, and weather" universe
                    [ ("origin", ParamConfig "string" "Where you're traveling from"
                                   "Where are you traveling from?" true);
                      ("destination", ParamConfig "string" "Vacation destination"
                                   "Where would you like to go on vacation?" true);
                      ("date", ParamConfig "date" "Travel start date"
                                   "When would you like to start your vacation?" true);
                      ("days", ParamConfig "int" "Length of vacation"
                                   "How many days will your vacation be?" true) ]))
    by reflexivity.
  destruct (get_tool_execution_order_partition TOOLS INTENTS set_order Hperm _ _ Hcfg)
    as (eo & Hrun & Hpart & _ & _).
  exists eo. split; [exact Hrun|].
  change (concat eo ≡ₚ universe) in Hpart.
  change (schedule_loop TOOLS set_order (length universe) universe [] = Some eo) in Hrun.
  assert (Hforced : ∀ t tag,
            t ∈ universe → tag ∉ universe →
            (∀ eo', tool_ready TOOLS eo' t = true → tag ∈ concat eo') →
            [t] ∈ eo).
  { intros t tag Ht Htag Hready.
    assert (t ∈ concat eo) as Hin by by rewrite Hpart.
    apply list_elem_of_In, in_concat in Hin as (b & Hb & Htb).
    apply list_elem_of_In in Hb, Htb.
    destruct (schedule_loop_never_ready TOOLS set_order Hperm universe t _
                (λ eo' Hsub, proj1 (not_true_iff_false _)
                   (λ Hr, Htag (Hsub _ (Hready eo' Hr))))
                universe [] eo (reflexivity _) (list_subseteq_nil _) Hrun b Hb Htb)
      as [Hnil|Heq]; [by apply elem_of_nil in Hnil|by subst b]. }
  assert (Hflight : ∀ eo', tool_ready TOOLS eo' "book_flight" = true →
                           "flight_options" ∈ concat eo').
  { intros eo' H. unfold tool_ready in H.
    change (get_tool_config TOOLS "book_flight")
      with (Some (ToolConfig "travel_tools.book_flight" "Book a specific flight"
                    ["origin"; "destination"; "date"] (Some ["flight_options"])
                    "booking_confirmation")) in H.
    simpl in H. rewrite andb_true_r in H. by apply bool_decide_eq_true in H. }
  assert (Hhotel : ∀ eo', tool_ready TOOLS eo' "book_hotel" = true →
                          "hotel_options" ∈ concat eo').
  { intros eo' H. unfold tool_ready in H.
    change (get_tool_config TOOLS "book_hotel")
      with (Some (ToolConfig "travel_tools.book_hotel" "Book a specific hotel"
                    ["destination"; "days"] (Some ["hotel_options"]) "hotel_booking")) in H.
    simpl in H. rewrite andb_true_r in H. by apply bool_decide_eq_true in H. }
  assert (Hnotin : ∀ tag, bool_decide (tag ∈ universe) = false → tag ∉ universe).
  { intros tag H. by apply bool_decide_eq_false in H. }
  split; [|split; [|split; [exact Hflight|split; reflexivity]]].
  - apply (Hforced "book_flight" "flight_options");
      [|apply Hnotin; reflexivity|exact Hflight].
    apply list_elem_of_In. simpl. auto 10.
  - apply (Hforced "book_hotel" "hotel_options");
      [|apply Hnotin; reflexivity|exact Hhotel].
    apply list_elem_of_In. simpl. auto 10.
Qed.

Lemma vacation_bookings_forced_witness :
  get_tool_execution_order TOOLS INTENTS insertion_order "plan_vacation"
  = Some [["search_flights"; "search_hotels"; "get_weather"]; ["book_flight"]; ["book_hotel"]]
  ∧ List.filter (spec_tool_ready TOOLS vacation_searches) ["book_flight"; "book_hotel"]
    = ["book_flight"; "book_hotel"].
Proof.
  destruct (vacation_bookings_forced insertion_order) as (eo & Hrun & _).
  - intros l. reflexivity.
  - split; vm_compute; reflexivity.
Defined.

(** ** Tool executor *)

Definition is_valid (v : validation) : bool :=
  match v with Valid => true | Invalid _ => false end.

Section ExecutorFacts.

Variable load_function : string → option py_function.

(** The batch succeeds exactly when every tool passes validation: what
    [_execute_tool] returns does not enter [batch_success]. *)
Lemma batch_success_validation parameters tools : ∀ acc,
  batch_success (foldl (run_tool load_function parameters) acc tools)
  = batch_success acc
    && forallb (λ t, is_valid (validate_tool_parameters t parameters)) tools.
Proof.
  induction tools as [|t tools IH]; intros acc; simpl.
  { by rewrite andb_true_r. }
  rewrite IH. unfold run_tool.
  destruct (validate_tool_parameters t parameters); simpl.
  - done.
  - by rewrite andb_false_r.
Qed.

(** The cursor after a batch has been processed. *)
Lemma executor_cursor (s : DialogState) (batch : list string) (current_batch : Z) :
  selected_tools s ≠ [] →
  missing_in (required_of s) (extracted_parameters s) = [] →
  ctx_int (dialog_context s) "current_tool_batch" 0 = current_batch →
  0 ≤ current_batch →
  ctx_batches (dialog_context s) "tool_execution_order" !! Z.to_nat current_batch
    = Some batch →
  ∃ cmd ctx,
    ToolExecutingAgent_call load_function s = Some cmd
    ∧ u_dialog_context (update cmd) = Some ctx
    ∧ ctx_int ctx "current_tool_batch" 0
      = if forallb (λ t, is_valid (validate_tool_parameters t (extracted_parameters s)))
                   batch
        then current_batch + 1 else current_batch.
Proof.
  intros Hsel Hmiss Hcur Hnonneg Hbatch.
  unfold ToolExecutingAgent_call.
  destruct (selected_tools s) as [|t0 ts]; [done|]. simpl.
  unfold required_of in Hmiss. rewrite Hmiss, Hcur.
  pose proof (lookup_lt_Some _ _ _ Hbatch) as Hlt.
  destruct (current_batch >=? _) eqn:Ege; [lia|].
  unfold py_index.
  destruct (0 <=? current_batch) eqn:Ele; [|lia].
  rewrite Hbatch. simpl.
  eexists _, _. split; [reflexivity|]. split; [reflexivity|].
  rewrite batch_success_validation. simpl.
  unfold ctx_int. rewrite !lookup_insert_ne, lookup_insert_eq by done.
  by destruct (forallb _ _).
Qed.

End ExecutorFacts.

(** A hotel session whose search batch is done and whose booking batch is
    due.  [book_hotel] is configured with the parameters [destination] and
    [days]; the function it names takes [city] and [days]. *)
Definition hotel_booking_session : DialogState :=
  mkState [Message "user" "Book a hotel in Paris for 3 days"]
          (Some "book_hotel") []
          (list_to_map [("destination", VStr "Paris"); ("days", VInt 3)])
          ["search_hotels"; "book_hotel"]
          {["search_hotels" := {["status" := VStr "success"; "success" := VBool true]}]}
          (list_to_map [("required_parameters", CStrList ["destination"; "days"]);
                        ("tool_execution_order",
                           CBatches [["search_hotels"]; ["book_hotel"]]);
                        ("current_tool_batch", CInt 1);
                        ("completed_tools", CStrList ["search_hotels"])]).

(** ** Routing after a batch *)

(** Once a result is recorded, [_decide_next_action] does not choose the
    tool executor. *)
Lemma decide_with_results (s : DialogState) :
  dict_nonempty (tool_results s) = true → _decide_next_action s ≠ tool_executing.
Proof.
  intros Hres. unfold _decide_next_action. rewrite Hres. simpl.
  rewrite andb_false_r. simpl.
  repeat match goal with |- context [if ?c then _ else _] => destruct c end;
    discriminate.
Qed.

(** Nor does the router as a whole, whatever the model answers. *)
Lemma supervisor_with_results (llm_answer : option string) (s : DialogState) :
  dict_nonempty (tool_results s) = true →
  goto (SupervisorAgent_call llm_answer s) ≠ tool_executing.
Proof.
  intros Hres. pose proof (decide_with_results s Hres) as Hdec.
  assert (Hnext :
    goto (match _decide_next_action s with
          | tool_choosing =>
              mkCommand tool_choosing
                (mkUpdate None
                   (Some (py_or (_detect_user_intent llm_answer (messages s))
                                (current_intent s)))
                   None None None None None)
          | next_action => mkCommand next_action no_update
          end) ≠ tool_executing).
  { by destruct (_decide_next_action s). }
  assert (Hconfirm : ∀ A B,
    goto (_handle_intent_switch_confirmation s A B) ≠ tool_executing).
  { intros A B. unfold _handle_intent_switch_confirmation.
    repeat match goal with
           | |- context [match ?c with _ => _ end] => destruct c
           end; discriminate. }
  unfold SupervisorAgent_call.
  destruct (_should_end_conversation s); [discriminate|].
  destruct (dialog_context s !! "awaiting_confirmation") as [[]|]; try apply Hconfirm;
    (destruct (current_intent s), (_detect_user_intent llm_answer (messages s));
     try exact Hnext; try discriminate;
     destruct (negb _); [discriminate | exact Hnext]).
Qed.

(** The flight session after its first batch: tools selected, every required
    parameter present, the result of [search_flights] recorded, and the
    cursor on the second of two batches. *)
Definition flight_after_search : DialogState :=
  mkState [Message "user" "Book a flight from New York to Paris on Dec 25"]
          (Some "book_flight") []
          (list_to_map [("origin", VStr "New York"); ("destination", VStr "Paris");
                        ("date", VStr "Dec 25")])
          ["search_flights"; "book_flight"]
          {["search_flights" := {["status" := VStr "success"; "success" := VBool true]}]}
          (list_to_map [("required_parameters", CStrList ["origin"; "destination"; "date"]);
                        ("tool_execution_order",
                           CBatches [["search_flights"]; ["book_flight"]]);
                        ("current_tool_batch", CInt 1);
                        ("completed_tools", CStrList ["search_flights"]);
                        ("batch_execution_success", CBool true);
                        ("last_missing_params", CStrList []);
                        ("needs_clarification", CBool false);
                        ("last_response_type", CStr "parameter_progress")]).

(** The model's answers in the flight scenario. *)
Definition flight_llm (hop : nat) : Oracle :=
  mkOracle (Some "book_flight")
           (Some (list_to_map [("origin", VStr "New York"); ("destination", VStr "Paris");
                               ("date", VStr "Dec 25")]))
           (Some "I found 3 flights from New York to Paris on Dec 25.").

(** C1 on the flight booking.  In the session after the first batch the
    router goes to the composer, not to the tool executor; and the whole turn
    runs the executor once: it ends with the result of [search_flights] only
    and the cursor on the batch of [book_flight], which never ran. *)
Theorem second_batch_not_dispatched :
  (missing_in (required_of flight_after_search) (extracted_parameters flight_after_search) = []
   ∧ ctx_int (dialog_context flight_after_search) "current_tool_batch" 0 = 1
   ∧ length (ctx_batches (dialog_context flight_after_search) "tool_execution_order") = 2%nat)
  ∧ _decide_next_action flight_after_search = generation
  ∧ SupervisorAgent_call (Some "book_flight") flight_after_search
    = mkCommand generation no_update
  ∧ (∀ llm_answer,
       goto (SupervisorAgent_call llm_answer flight_after_search) ≠ tool_executing)
  ∧ ∃ final,
      invoke insertion_order (travel_tools idle_body) flight_llm 0
             (initial_state "Book a flight from New York to Paris on Dec 25")
      = Some ([supervisor; tool_choosing; supervisor; input_parameter; supervisor;
               tool_executing; supervisor; generation; supervisor; generation], final)
      ∧ tool_results final = tool_results flight_after_search
      ∧ tool_results final !! "book_flight" = None
      ∧ ctx_int (dialog_context final) "current_tool_batch" 0 = 1
      ∧ ctx_batches (dialog_context final) "tool_execution_order"
        = [["search_flights"]; ["book_flight"]].
Proof.
  split; [repeat split; vm_compute; reflexivity|].
  split; [vm_compute; reflexivity|].
  split; [vm_compute; reflexivity|].
  split; [intros llm_answer; by apply supervisor_with_results|].
  eexists. split; [vm_compute; reflexivity|].
  repeat split; vm_compute; reflexivity.
Qed.


(** * Further properties of the engine *)

(** ** Batch scheduler: what the loop guarantees *)

Lemma schedule_loop_extends tools_table set_order fuel : ∀ remaining eo final,
  schedule_loop tools_table set_order fuel remaining eo = Some final →
  ∃ eo', final = eo ++ eo'.
Proof.
  induction fuel as [|fuel IH]; intros remaining eo final Hrun.
  - destruct remaining; simpl in Hrun; [|discriminate].
    injection Hrun as <-. exists []. by rewrite app_nil_r.
  - destruct remaining as [|t ts].
    { simpl in Hrun. injection Hrun as <-. exists []. by rewrite app_nil_r. }
    rewrite schedule_loop_step in Hrun by done.
    apply IH in Hrun as [eo' ->]. eexists. by rewrite <- app_assoc.
Qed.

Lemma next_batch_ready_or_forced tools_table set_order remaining eo t :
  t ∈ next_batch tools_table set_order remaining eo →
  tool_ready tools_table eo t = true ∨ next_batch tools_table set_order remaining eo = [t].
Proof.
  intros Ht. destruct (tool_ready tools_table eo t) eqn:E; [by left|].
  right. by apply next_batch_forced.
Qed.

Lemma schedule_loop_ready_or_forced tools_table set_order fuel : ∀ remaining eo final,
  schedule_loop tools_table set_order fuel remaining eo = Some final →
  ∀ i b t, final !! i = Some b → (length eo ≤ i)%nat → t ∈ b →
           tool_ready tools_table (take i final) t = true ∨ b = [t].
Proof.
  induction fuel as [|fuel IH]; intros remaining eo final Hrun i b t Hi Hlen Ht.
  - destruct remaining; simpl in Hrun; [|discriminate].
    injection Hrun as <-. apply lookup_lt_Some in Hi. lia.
  - destruct remaining as [|r rs].
    { simpl in Hrun. injection Hrun as <-. apply lookup_lt_Some in Hi. lia. }
    rewrite schedule_loop_step in Hrun by done.
    set (batch := next_batch tools_table set_order (r :: rs) eo) in *.
    destruct (decide (i = length eo)) as [->|Hne].
    + destruct (schedule_loop_extends _ _ _ _ _ _ Hrun) as [eo' ->].
      rewrite <- app_assoc in Hi. rewrite lookup_app_r in Hi by lia.
      rewrite Nat.sub_diag in Hi. simpl in Hi. injection Hi as <-.
      rewrite <- app_assoc, take_app_length.
      by apply next_batch_ready_or_forced.
    + eapply IH; [exact Hrun|exact Hi| |exact Ht].
      rewrite length_app. simpl. lia.
Qed.

(** X1. For every tool table, intent table and iteration order that
    enumerates the set, the scheduler returns a plan for a known intent; the
    plan holds every tool of the intent exactly once and has no empty batch. *)
Theorem scheduler_partitions_tools (tools_table : gmap string tool_config)
        (intents_table : gmap string intent_config)
        (set_order : list string → list string) (intent_name : string)
        (cfg : intent_config) :
  (∀ l, set_order l ≡ₚ l) →
  intents_table !! intent_name = Some cfg →
  ∃ eo, get_tool_execution_order tools_table intents_table set_order intent_name = Some eo
        ∧ NoDup (concat eo)
        ∧ (∀ t, t ∈ ic_tools cfg ↔ ∃ b, b ∈ eo ∧ t ∈ b)
        ∧ Forall (λ b, b ≠ []) eo.
Proof.
  intros Hperm Hcfg.
  destruct (get_tool_execution_order_partition tools_table intents_table set_order
              Hperm _ _ Hcfg) as (eo & Hrun & Hpart & Hnd & Hne).
  exists eo. repeat split; try done.
  - intros Ht. apply elem_of_remove_dups in Ht. rewrite <- Hpart in Ht.
    apply list_elem_of_In, in_concat in Ht as (b & Hb & Htb).
    exists b. split; by apply list_elem_of_In.
  - intros (b & Hb & Htb). apply elem_of_remove_dups. rewrite <- Hpart.
    apply list_elem_of_In, in_concat. exists b. split; by apply list_elem_of_In.
Qed.

Lemma scheduler_partitions_tools_witness :
  ∃ eo, get_tool_execution_order TOOLS INTENTS insertion_order "book_hotel" = Some eo
        ∧ NoDup (concat eo)
        ∧ (∀ t, t ∈ ["search_hotels"; "book_hotel"] ↔ ∃ b, b ∈ eo ∧ t ∈ b)
        ∧ Forall (λ b, b ≠ []) eo.
Proof.
  apply (scheduler_partitions_tools TOOLS INTENTS insertion_order "book_hotel"
           (IntentConfig "Book hotel accommodation" ["search_hotels"; "book_hotel"]
              [ ("destination", ParamConfig "string" "City or location for hotel"
                                  "Which city do you need a hotel in?" true);
                ("days", ParamConfig "int" "Number of days to stay"
                                  "How many days will you be staying?" true) ])).
  - intros l. reflexivity.
  - reflexivity.
Defined.

Lemma order_member_ready_or_alone (tools_table : gmap string tool_config)
      (intents_table : gmap string intent_config)
      (set_order : list string → list string) (intent_name : string)
      (eo : list (list string)) (i : nat) (b : list string) (t : string) :
  get_tool_execution_order tools_table intents_table set_order intent_name = Some eo →
  eo !! i = Some b → t ∈ b →
  tool_ready tools_table (take i eo) t = true ∨ b = [t].
Proof.
  unfold get_tool_execution_order. intros Hrun Hi Ht.
  destruct (get_intent_config intents_table intent_name) as [cfg|].
  - destruct (ic_tools cfg) as [|x xs] eqn:Etools.
    + injection Hrun as <-. by rewrite lookup_nil in Hi.
    + eapply schedule_loop_ready_or_forced; [exact Hrun|exact Hi|simpl; lia|exact Ht].
  - injection Hrun as <-. by rewrite lookup_nil in Hi.
Qed.

(** X2. Every member of a batch either passed the readiness test against
    the batches before it (each entry of its [requires] list is the name of
    a tool scheduled earlier), or it is the only member of its batch. *)
Theorem scheduler_batch_ready_or_alone (tools_table : gmap string tool_config)
        (intents_table : gmap string intent_config)
        (set_order : list string → list string) (intent_name : string)
        (eo : list (list string)) (i : nat) (b : list string) (t : string) :
  get_tool_execution_order tools_table intents_table set_order intent_name = Some eo →
  eo !! i = Some b → t ∈ b →
  tool_ready tools_table (take i eo) t = true ∨ b = [t].
Proof. apply order_member_ready_or_alone. Qed.

Lemma scheduler_batch_ready_or_alone_witness :
  tool_ready TOOLS (take 1 [["search_flights"]; ["book_flight"]]) "book_flight" = true
  ∨ ["book_flight"] = ["book_flight"].
Proof.
  apply (scheduler_batch_ready_or_alone TOOLS INTENTS insertion_order "book_flight"
           [["search_flights"]; ["book_flight"]] 1 ["book_flight"] "book_flight").
  - vm_compute. reflexivity.
  - reflexivity.
  - apply list_elem_of_singleton. reflexivity.
Defined.

(** X3. A tool of the intent that has a configuration and no requirements
    is scheduled in the first batch. *)
Theorem scheduler_roots_first (tools_table : gmap string tool_config)
        (intents_table : gmap string intent_config)
        (set_order : list string → list string) (intent_name : string)
        (cfg : intent_config) (eo : list (list string)) (t : string)
        (tcfg : tool_config) :
  (∀ l, set_order l ≡ₚ l) →
  intents_table !! intent_name = Some cfg →
  get_tool_execution_order tools_table intents_table set_order intent_name = Some eo →
  t ∈ ic_tools cfg →
  tools_table !! t = Some tcfg →
  default [] (tc_requires tcfg) = [] →
  ∃ b rest, eo = b :: rest ∧ t ∈ b.
Proof.
  intros Hperm Hcfg Hrun Ht Htcfg Hreq.
  unfold get_tool_execution_order, get_intent_config in Hrun. rewrite Hcfg in Hrun.
  destruct (ic_tools cfg) as [|x xs] eqn:Etools; [by apply elem_of_nil in Ht|].
  cbv beta iota zeta in Hrun. rewrite <- Etools in Hrun.
  set (remaining := remove_dups (ic_tools cfg)) in *.
  assert (Hin : t ∈ remaining) by (apply elem_of_remove_dups; by rewrite Etools).
  destruct remaining as [|r rs] eqn:Erem; [by apply elem_of_nil in Hin|].
  rewrite <- Erem in *. simpl length in Hrun. rewrite Erem in Hrun at 1.
  simpl length in Hrun. rewrite schedule_loop_step in Hrun by (rewrite Erem; done).
  destruct (schedule_loop_extends _ _ _ _ _ _ Hrun) as [eo' ->].
  exists (next_batch tools_table set_order remaining []), eo'. split; [done|].
  assert (Hready : tool_ready tools_table [] t = true).
  { unfold tool_ready, get_tool_config. by rewrite Htcfg, Hreq. }
  assert (Hfilter : In t (List.filter (tool_ready tools_table []) (set_order remaining))).
  { apply filter_In. split; [|done]. apply list_elem_of_In. by rewrite Hperm. }
  unfold next_batch.
  destruct (List.filter _ _) as [|y ys]; [done|]. by apply list_elem_of_In.
Qed.

Lemma scheduler_roots_first_witness :
  ∃ b rest, [["search_flights"; "search_hotels"; "get_weather"]; ["book_flight"]; ["book_hotel"]]
            = b :: rest ∧ "get_weather" ∈ b.
Proof.
  apply (scheduler_roots_first TOOLS INTENTS insertion_order "plan_vacation"
           (IntentConfig
              "Plan a complete vacation with flights, hotel, and weather"
              ["search_flights"; "search_hotels"; "get_weather"; "book_flight"; "book_hotel"]
              [ ("origin", ParamConfig "string" "Where you're traveling from"
                             "Where are you traveling from?" true);
                ("destination", ParamConfig "string" "Vacation destination"
                             "Where would you like to go on vacation?" true);
                ("date", ParamConfig "date" "Travel start date"
                             "When would you like to start your vacation?" true);
                ("days", ParamConfig "int" "Length of vacation"
                             "How many days will your vacation be?" true) ])
           _ "get_weather"
           (ToolConfig "travel_tools.get_weather" "Get weather information"
                       ["destination"; "date"] None "weather_info")).
  - intros l. reflexivity.
  - reflexivity.
  - vm_compute. reflexivity.
  - apply list_elem_of_In. simpl. auto 10.
  - reflexivity.
  - reflexivity.
Defined.

(** X4. A tool of the intent that has no configuration, or that requires
    something which is not the name of a tool of the intent, is never
    dropped and never grouped: it is scheduled as a batch of its own. *)
Theorem scheduler_unmet_tool_alone (tools_table : gmap string tool_config)
        (intents_table : gmap string intent_config)
        (set_order : list string → list string) (intent_name : string)
        (cfg : intent_config) (eo : list (list string)) (t : string) :
  (∀ l, set_order l ≡ₚ l) →
  intents_table !! intent_name = Some cfg →
  get_tool_execution_order tools_table intents_table set_order intent_name = Some eo →
  t ∈ ic_tools cfg →
  (tools_table !! t = None
   ∨ ∃ tcfg dep, tools_table !! t = Some tcfg
                 ∧ dep ∈ default [] (tc_requires tcfg) ∧ dep ∉ ic_tools cfg) →
  [t] ∈ eo.
Proof.
  intros Hperm Hcfg Hrun Ht Hunmet.
  destruct (get_tool_execution_order_partition tools_table intents_table set_order
              Hperm _ _ Hcfg) as (eo0 & Hrun0 & Hpart & _ & _).
  rewrite Hrun in Hrun0. injection Hrun0 as <-.
  assert (Hin : t ∈ concat eo) by (rewrite Hpart; by apply elem_of_remove_dups).
  apply list_elem_of_In, in_concat in Hin as (b & Hb & Htb).
  apply list_elem_of_In in Hb, Htb.
  apply list_elem_of_lookup in Hb as Hi. destruct Hi as [i Hi].
  destruct (order_member_ready_or_alone _ _ _ _ _ _ _ _ Hrun Hi Htb) as [Hready|Heq];
    [exfalso|by subst b].
  unfold tool_ready, get_tool_config in Hready.
  destruct Hunmet as [Hnone|(tcfg & dep & Hsome & Hdep & Hout)].
  - by rewrite Hnone in Hready.
  - rewrite Hsome in Hready.
    rewrite forallb_forall in Hready.
    apply list_elem_of_In, Hready, bool_decide_eq_true in Hdep.
    apply Hout, elem_of_remove_dups. rewrite <- Hpart.
    rewrite <- (take_drop i eo), concat_app. apply elem_of_app. by left.
Qed.

Lemma scheduler_unmet_tool_alone_witness :
  ["book_hotel"] ∈ [["search_hotels"]; ["book_hotel"]].
Proof.
  apply (scheduler_unmet_tool_alone TOOLS INTENTS insertion_order "book_hotel"
           (IntentConfig "Book hotel accommodation" ["search_hotels"; "book_hotel"]
              [ ("destination", ParamConfig "string" "City or location for hotel"
                                  "Which city do you need a hotel in?" true);
                ("days", ParamConfig "int" "Number of days to stay"
                                  "How many days will you be staying?" true) ])).
  - intros l. reflexivity.
  - reflexivity.
  - vm_compute. reflexivity.
  - apply list_elem_of_In. simpl. auto.
  - right.
    exists (ToolConfig "travel_tools.book_hotel" "Book a specific hotel"
                       ["destination"; "days"] (Some ["hotel_options"]) "hotel_booking"),
           "hotel_options".
    split; [reflexivity|]. split; [apply list_elem_of_singleton; reflexivity|].
    intros Hin. apply list_elem_of_In in Hin. simpl in Hin.
    destruct Hin as [Hin|[Hin|[]]]; discriminate.
Defined.

(** ** Intent detection *)

Lemma filter_nil_iff {A} (p : A → bool) (l : list A) :
  List.filter p l = [] ↔ ∀ x, In x l → p x = false.
Proof.
  induction l as [|a l IH]; simpl.
  - split; [intros _ x []|done].
  - destruct (p a) eqn:E.
    + split; [discriminate|]. intros H. specialize (H a (or_introl eq_refl)). congruence.
    + rewrite IH. split.
      * intros H x [<-|Hx]; auto.
      * intros H x Hx. apply H. by right.
Qed.







Lemma scores_filter_nil (table : list (string * list string)) (s : string) :
  List.filter (λ kv : string * nat, (0 <? kv.2)%nat)
    ((λ '(intent, keywords),
        (intent, length (List.filter (λ keyword, contains keyword s) keywords)))
       <$> table) = []
  ↔ ∀ intent keywords keyword,
      In (intent, keywords) table → In keyword keywords → contains keyword s = false.
Proof.
  induction table as [|[intent0 keywords0] table IH].
  - split; [intros _ ? ? ? []|done].
  - rewrite fmap_cons. cbn [List.filter snd].
    destruct (0 <? _)%nat eqn:Escore.
    + split; [discriminate|]. intros H. exfalso.
      apply Nat.ltb_lt in Escore.
      assert (List.filter (λ keyword, contains keyword s) keywords0 = []) as Hnil.
      { apply filter_nil_iff. intros keyword Hkw. eapply H; [by left|done]. }
      rewrite Hnil in Escore. simpl in Escore. lia.
    + rewrite IH. apply Nat.ltb_ge in Escore.
      assert (List.filter (λ keyword, contains keyword s) keywords0 = []) as Hnil.
      { apply length_zero_iff_nil. lia. }
      rewrite filter_nil_iff in Hnil. split.
      * intros H intent keywords keyword [[= <- <-]|Hentry] Hkw; [by apply Hnil|].
        by eapply H.
      * intros H intent keywords keyword Hentry Hkw. eapply H; [by right|done].
Qed.

(** X6. The keyword detector answers nothing exactly when the lower-cased
    message contains none of the configured keywords. *)
Theorem keyword_detection_silent_iff (user_message : string) :
  detect_intent_from_keywords user_message = None
  ↔ ∀ intent keywords keyword,
      (intent, keywords) ∈ INTENT_DETECTION_KEYWORDS → keyword ∈ keywords →
      contains keyword (lower user_message) = false.
Proof.
  unfold detect_intent_from_keywords.
  pose proof (scores_filter_nil INTENT_DETECTION_KEYWORDS (lower user_message)) as Hnil.
  destruct (List.filter _ _) as [|first others].
  - split; [|done]. intros _ intent keywords keyword Hentry Hkw.
    eapply (proj1 Hnil eq_refl); apply list_elem_of_In; eauto.
  - split; [discriminate|]. intros H. exfalso.
    assert (first :: others = []) as Hcontra; [|discriminate].
    apply Hnil. intros intent keywords keyword Hentry Hkw.
    eapply H; apply list_elem_of_In; eauto.
Qed.

(** ** Router *)

Lemma forallb_truthy_missing (required : list string) (params : gmap string value) :
  forallb (truthy_get params) required = negb (list_nonempty (missing_in required params)).
Proof.
  unfold missing_in. induction required as [|p required IH]; [done|]. simpl.
  destruct (truthy_get params p); simpl; [exact IH|done].
Qed.

Lemma decide_executes_iff (s : DialogState) :
  _decide_next_action s = tool_executing
  ↔ selected_tools s ≠ []
    ∧ dict_nonempty (tool_results s) = false
    ∧ missing_in (required_of s) (extracted_parameters s) = [].
Proof.
  unfold _decide_next_action, required_of. rewrite forallb_truthy_missing.
  destruct (selected_tools s) as [|t ts];
    destruct (truthy_str (current_intent s));
    destruct (missing_in _ _) as [|p ps];
    destruct (dict_nonempty (tool_results s)); simpl;
    try destruct (ctx_str_is _ _ _);
    (split; [try discriminate; try done | intros (H1 & H2 & H3); try done; try discriminate]).
Qed.

(** X7. [_decide_next_action] chooses the tool executor exactly when tools
    are selected, no tool result is recorded and no required parameter is
    missing; whether an intent is set plays no part. *)
Theorem executor_chosen_iff (s : DialogState) :
  _decide_next_action s = tool_executing
  ↔ selected_tools s ≠ []
    ∧ dict_nonempty (tool_results s) = false
    ∧ missing_in (required_of s) (extracted_parameters s) = [].
Proof. apply decide_executes_iff. Qed.



(** X9. When a session working on intent A receives a user message in
    which another intent B is detected (no farewell, no proposal pending),
    the router ends the turn with one assistant message, records the
    proposal from A to B, and leaves the intent, the parameters, the tools,
    the results, the paused intents and every other context entry as they
    were. *)
Theorem switch_proposal_keeps_state (llm_answer : option string) (s : DialogState)
        (A B : string) :
  _should_end_conversation s = false →
  (∀ kind from to,
     dialog_context s !! "awaiting_confirmation" ≠ Some (CConfirm kind from to)) →
  current_intent s = Some A →
  _detect_user_intent llm_answer (messages s) = Some B →
  A ≠ B →
  let cmd := SupervisorAgent_call llm_answer s in
  let s' := apply_update s (update cmd) in
  goto cmd = END
  ∧ (∃ text, messages s' = messages s ++ [Message "assistant" text])
  ∧ current_intent s' = Some A
  ∧ extracted_parameters s' = extracted_parameters s
  ∧ selected_tools s' = selected_tools s
  ∧ tool_results s' = tool_results s
  ∧ paused_intents s' = paused_intents s
  ∧ dialog_context s' !! "awaiting_confirmation" = Some (CConfirm "intent_switch" A B)
  ∧ (∀ key, key ≠ "awaiting_confirmation" → key ≠ "last_response_type" →
            dialog_context s' !! key = dialog_context s !! key).
Proof.
  intros Hend Hwait Hcur Hdet Hne. simpl.
  assert (Hcall : SupervisorAgent_call llm_answer s
                  = _request_intent_switch_confirmation s A B).
  { unfold SupervisorAgent_call. rewrite Hend, Hcur, Hdet.
    assert (String.eqb B A = false) as -> by (apply String.eqb_neq; congruence).
    simpl negb. cbv iota.
    destruct (dialog_context s !! "awaiting_confirmation") as [[]|] eqn:E; try done.
    by destruct (Hwait type from to). }
  rewrite Hcall. simpl. rewrite Hcur.
  repeat split; try done.
  - by eexists.
  - by rewrite lookup_insert_ne, lookup_insert_eq.
  - intros key H1 H2. by rewrite !lookup_insert_ne.
Qed.

Lemma switch_proposal_keeps_state_witness :
  let s := mkState [Message "user" "Book a flight from NYC";
                    Message "assistant" "Where would you like to fly to?";
                    Message "user" "I also need a hotel room"]
                   (Some "book_flight") [] {["origin" := VStr "NYC"]}
                   ["search_flights"; "book_flight"] ∅
                   (list_to_map [("required_parameters",
                                    CStrList ["origin"; "destination"; "date"])]) in
  let s' := apply_update s (update (SupervisorAgent_call None s)) in
  extracted_parameters s' = {["origin" := VStr "NYC"]}
  ∧ dialog_context s' !! "awaiting_confirmation"
    = Some (CConfirm "intent_switch" "book_flight" "book_hotel").
Proof.
  intros s s'.
  destruct (switch_proposal_keeps_state None s "book_flight" "book_hotel")
    as (_ & _ & _ & Hparams & _ & _ & _ & Hwait & _).
  - reflexivity.
  - intros kind from to. vm_compute. discriminate.
  - reflexivity.
  - vm_compute. reflexivity.
  - discriminate.
  - split; [exact Hparams | exact Hwait].
Defined.

(** X10. When a proposal is pending, the conversation is not ending
    ([end_conversation] is not set and the last message holds no farewell
    word) and the user's reply holds none of the affirmative words and one of
    the negative words, the router clears the proposal and goes to the slot
    filler; messages, intent, parameters, tools, results, paused intents and
    the other context entries are kept, and the router's next call is no
    longer a confirmation step. *)
Theorem declined_switch_resumes (llm_answer : option string) (s : DialogState)
        (kind A B : string) (m : message) :
  _should_end_conversation s = false →
  dialog_context s !! "awaiting_confirmation" = Some (CConfirm kind A B) →
  last (messages s) = Some m → role m = "user" →
  any_in affirmative_words (strip (lower (content m))) = false →
  any_in negative_words (strip (lower (content m))) = true →
  let cmd := SupervisorAgent_call llm_answer s in
  let s' := apply_update s (update cmd) in
  goto cmd = input_parameter
  ∧ s' = mkState (messages s) (current_intent s) (paused_intents s)
                 (extracted_parameters s) (selected_tools s) (tool_results s)
                 (dialog_context s')
  ∧ dialog_context s' !! "awaiting_confirmation" = Some CNone
  ∧ (∀ key, key ≠ "awaiting_confirmation" → key ≠ "last_response_type" →
            dialog_context s' !! key = dialog_context s !! key)
  ∧ (∀ kind' from to,
       dialog_context s' !! "awaiting_confirmation" ≠ Some (CConfirm kind' from to)).
Proof.
  intros Hend Hwait Hlast Hrole Hyes Hno. simpl.
  unfold SupervisorAgent_call. rewrite Hend, Hwait.
  unfold _handle_intent_switch_confirmation. rewrite Hlast, Hrole.
  simpl negb. cbv iota. rewrite Hyes, Hno. simpl.
  repeat split.
  - by rewrite lookup_insert_ne, lookup_insert_eq.
  - intros key H1 H2. by rewrite !lookup_insert_ne.
  - intros kind' from to. by rewrite lookup_insert_ne, lookup_insert_eq.
Qed.

Lemma declined_switch_resumes_witness :
  let s := mkState [Message "user" "Book a flight from NYC";
                    Message "assistant" "Would you like me to pause?";
                    Message "user" "no"]
                   (Some "book_flight") [] {["origin" := VStr "NYC"]}
                   ["search_flights"; "book_flight"] ∅
                   {["awaiting_confirmation" :=
                       CConfirm "intent_switch" "book_flight" "book_hotel"]} in
  goto (SupervisorAgent_call None s) = input_parameter
  ∧ dialog_context (apply_update s (update (SupervisorAgent_call None s)))
      !! "awaiting_confirmation" = Some CNone.
Proof.
  intros s.
  destruct (declined_switch_resumes None s "intent_switch" "book_flight" "book_hotel"
              (Message "user" "no"))
    as (Hgoto & _ & Hwait & _); try reflexivity.
  split; [exact Hgoto | exact Hwait].
Defined.

(** ** Slot filler: invariants and hand-over *)

Lemma retries_of_insert_other (s : DialogState) (ctx : gmap string ctxval) (p : string) :
  ctx !! "retry_counts" = dialog_context s !! "retry_counts" →
  default 0 (ctx_counts ctx "retry_counts" !! p) = retries_of s p.
Proof. intros H. unfold retries_of, ctx_counts. by rewrite H. Qed.

(** X11. The retry ceiling is an invariant of the slot filler: if no
    parameter has more retries than [max_retries] before a turn, none has
    after it, whatever the model extracts. *)
Theorem retry_counts_stay_bounded (llm_result : option (gmap string value))
        (s : DialogState) :
  has_user_message s →
  NoDup (required_of s) →
  (∀ p, retries_of s p ≤ ctx_int (dialog_context s) "max_retries" 5) →
  let s' := apply_update s (update (InputParameterAgent_call llm_result s)) in
  ctx_int (dialog_context s') "max_retries" 5 = ctx_int (dialog_context s) "max_retries" 5
  ∧ ∀ p, retries_of s' p ≤ ctx_int (dialog_context s) "max_retries" 5.
Proof.
  intros Hmsg Hnd Hbound. simpl. rewrite InputParameterAgent_call_cases by done.
  assert (Hprog :
    let s' := apply_update s (update (progress_command llm_result s)) in
    ctx_int (dialog_context s') "max_retries" 5 = ctx_int (dialog_context s) "max_retries" 5
    ∧ ∀ p, retries_of s' p ≤ ctx_int (dialog_context s) "max_retries" 5).
  { simpl. split.
    - unfold ctx_int. by rewrite !lookup_insert_ne.
    - intros p. unfold retries_of at 1. simpl.
      rewrite (retries_of_insert_other s); [apply Hbound|]. by rewrite !lookup_insert_ne. }
  destruct (still_missing llm_result s) as [|q qs] eqn:Emiss; [exact Hprog|].
  destruct (exhausted_parameter llm_result s) as [param|] eqn:Eex.
  { simpl. split.
    - unfold ctx_int. by rewrite !lookup_insert_ne.
    - intros p. unfold retries_of at 1. simpl.
      rewrite (retries_of_insert_other s); [apply Hbound|]. by rewrite !lookup_insert_ne. }
  destruct (0 <? size (extracted_of llm_result s))%nat; [exact Hprog|].
  simpl. split.
  { unfold ctx_int. by rewrite !lookup_insert_ne. }
  intros p. unfold retries_of at 1. simpl. unfold ctx_counts at 1.
  rewrite lookup_insert_ne, lookup_insert_eq by done.
  rewrite increment_retries_lookup by by apply missing_in_NoDup.
  fold (retries_of s p).
  case_bool_decide as Hin.
  - pose proof (exhausted_parameter_None _ _ Eex p Hin). lia.
  - specialize (Hbound p). lia.
Qed.

Lemma retry_counts_stay_bounded_witness :
  retries_of
    (apply_update days_given_session
       (update (InputParameterAgent_call (Some ∅) days_given_session))) "destination"
  ≤ ctx_int (dialog_context days_given_session) "max_retries" 5.
Proof.
  destruct (retry_counts_stay_bounded (Some ∅) days_given_session) as [_ Hbound].
  - reflexivity.
  - change (NoDup ["destination"; "days"]).
    apply NoDup_cons_2; [|apply NoDup_singleton].
    intros H%list_elem_of_singleton. discriminate.
  - intros p. unfold retries_of.
    change (ctx_counts (dialog_context days_given_session) "retry_counts")
      with (list_to_map [("destination", 1); ("days", 1)] : gmap string Z).
    change (ctx_int (dialog_context days_given_session) "max_retries" 5) with 5.
    destruct (decide (p = "destination")) as [->|H1]; [vm_compute; discriminate|].
    destruct (decide (p = "days")) as [->|H2]; [vm_compute; discriminate|].
    simpl. rewrite !lookup_insert_ne, lookup_empty by done. simpl. lia.
  - apply Hbound.
Defined.

Lemma required_of_insert3 (s : DialogState) k1 k2 k3 v1 v2 v3 :
  k1 ≠ "required_parameters" → k2 ≠ "required_parameters" → k3 ≠ "required_parameters" →
  ctx_list (<[k1 := v1]> (<[k2 := v2]> (<[k3 := v3]> (dialog_context s))))
           "required_parameters" = required_of s.
Proof.
  intros H1 H2 H3. unfold required_of, ctx_list. by rewrite !lookup_insert_ne.
Qed.

(** X12. When a turn of the slot filler leaves no required parameter
    missing, it appends no message and returns to the router; if tools are
    selected and no result is recorded, the router's decision on the updated
    session is to run the tools. *)
Theorem filled_slots_lead_to_execution (llm_result : option (gmap string value))
        (s : DialogState) :
  has_user_message s →
  still_missing llm_result s = [] →
  selected_tools s ≠ [] →
  dict_nonempty (tool_results s) = false →
  let cmd := InputParameterAgent_call llm_result s in
  let s' := apply_update s (update cmd) in
  goto cmd = supervisor
  ∧ messages s' = messages s
  ∧ extracted_parameters s' = updated_of llm_result s
  ∧ _decide_next_action s' = tool_executing.
Proof.
  intros Hmsg Hmiss Htools Hres. simpl.
  rewrite InputParameterAgent_call_cases by done. rewrite Hmiss.
  repeat split. apply decide_executes_iff. simpl. repeat split; try done.
  unfold required_of at 1. simpl. rewrite required_of_insert3 by done. exact Hmiss.
Qed.

Lemma filled_slots_lead_to_execution_witness :
  let s := mkState [Message "user" "Book a hotel in Paris for 3 days"]
                   (Some "book_hotel") [] ∅ ["search_hotels"; "book_hotel"] ∅
                   (list_to_map [("required_parameters", CStrList ["destination"; "days"])]) in
  let llm := Some (list_to_map [("destination", VStr "Paris"); ("days", VInt 3)]) in
  _decide_next_action (apply_update s (update (InputParameterAgent_call llm s)))
  = tool_executing.
Proof.
  intros s llm.
  destruct (filled_slots_lead_to_execution llm s) as (_ & _ & _ & Hnext).
  - reflexivity.
  - vm_compute. reflexivity.
  - discriminate.
  - reflexivity.
  - exact Hnext.
Defined.




(** X14. Whenever the slot filler hands over to the composer, it has
    appended one assistant message (a clarification question or the failure
    notice), and the composer, whatever the model would answer, ends the
    turn without adding a message or changing the session. *)
Theorem slot_filler_message_ends_turn (llm_result : option (gmap string value))
        (llm_text : option string) (s : DialogState) :
  goto (InputParameterAgent_call llm_result s) = generation →
  let s' := apply_update s (update (InputParameterAgent_call llm_result s)) in
  (∃ text, messages s' = messages s ++ [Message "assistant" text])
  ∧ GenerationAgent_call llm_text s' = Some (mkCommand END no_update).
Proof.
  intros Hgoto. simpl.
  destruct (truthy_str (latest_user_message (messages s))) eqn:Hmsg.
  2: { unfold InputParameterAgent_call in Hgoto. rewrite Hmsg in Hgoto. discriminate. }
  rewrite InputParameterAgent_call_cases in * by done.
  assert (Hpass : ∀ text ctx params,
    GenerationAgent_call llm_text
      (apply_update s
         (mkUpdate (Some (messages s ++ [Message "assistant" text]))
                   None None params None None ctx))
    = Some (mkCommand END no_update)).
  { intros text ctx params. unfold GenerationAgent_call, last_role_is. simpl.
    by rewrite last_snoc. }
  destruct (still_missing llm_result s) as [|q qs]; [discriminate|].
  destruct (exhausted_parameter llm_result s) as [param|].
  { split; [by eexists|apply Hpass]. }
  destruct (0 <? size (extracted_of llm_result s))%nat; [discriminate|].
  split; [by eexists|apply Hpass].
Qed.

Lemma slot_filler_message_ends_turn_witness :
  GenerationAgent_call (Some "Sure!")
    (apply_update days_given_session
       (update (InputParameterAgent_call (Some ∅) days_given_session)))
  = Some (mkCommand END no_update).
Proof.
  apply (slot_filler_message_ends_turn (Some ∅) (Some "Sure!") days_given_session).
  reflexivity.
Defined.

(** ** Response composer: replies and model failure *)

(** X15. After any call of the composer that returns, a second call ends
    the turn without a further message: the first call appended at most one
    assistant message and changed nothing else, and the second call changes
    nothing at all. *)
Theorem composer_replies_once (llm_text llm_text' : option string) (s : DialogState)
        (cmd : Command) :
  GenerationAgent_call llm_text s = Some cmd →
  let s' := apply_update s (update cmd) in
  (messages s' = messages s
   ∨ ∃ text, messages s' = messages s ++ [Message "assistant" text])
  ∧ s' = mkState (messages s') (current_intent s) (paused_intents s)
                 (extracted_parameters s) (selected_tools s) (tool_results s)
                 (dialog_context s)
  ∧ GenerationAgent_call llm_text' s' = Some (mkCommand END no_update).
Proof.
  intros Hcall. simpl.
  assert (Hpass : ∀ text,
    GenerationAgent_call llm_text'
      (apply_update s
         (mkUpdate (Some (messages s ++ [Message "assistant" text]))
                   None None None None None None))
    = Some (mkCommand END no_update)).
  { intros text. unfold GenerationAgent_call, last_role_is. simpl. by rewrite last_snoc. }
  unfold GenerationAgent_call in Hcall.
  destruct (last_role_is (messages s) "assistant") eqn:Elast.
  - injection Hcall as <-. rewrite apply_no_update.
    split; [by left|]. split; [by destruct s|].
    unfold GenerationAgent_call. by rewrite Elast.
  - destruct (dict_nonempty (tool_results s)).
    + destruct (_generate_response_from_results _ _ _) as [response|];
        simpl in Hcall; [|discriminate].
      injection Hcall as <-. split; [right; by eexists|]. split; [done|apply Hpass].
    + destruct llm_text as [response|]; simpl in Hcall; [|discriminate].
      injection Hcall as <-. split; [right; by eexists|]. split; [done|apply Hpass].
Qed.

Lemma composer_replies_once_witness :
  GenerationAgent_call None
    (apply_update flight_after_search
       (mkUpdate (Some (messages flight_after_search ++
                        [Message "assistant" "I found 3 flights."]))
                 None None None None None None))
  = Some (mkCommand END no_update).
Proof.
  apply (composer_replies_once (Some "I found 3 flights.") None flight_after_search
           (mkCommand supervisor
              (mkUpdate (Some (messages flight_after_search ++
                               [Message "assistant" "I found 3 flights."]))
                        None None None None None None))).
  reflexivity.
Defined.

Lemma has_errors_iff (results : gmap string (gmap string value)) :
  has_errors results = true
  ↔ ∃ tool result, results !! tool = Some result ∧ result_has_error result = true.
Proof.
  unfold has_errors. rewrite existsb_exists. split.
  - intros (result & Hin & Herr).
    apply in_map_iff in Hin as ([tool r] & <- & Hin).
    apply list_elem_of_In, elem_of_map_to_list in Hin. by exists tool, r.
  - intros (tool & result & Hlook & Herr). exists result. split; [|done].
    apply in_map_iff. exists (tool, result). split; [done|].
    by apply list_elem_of_In, elem_of_map_to_list.
Qed.

(** X16. How the composer behaves when the model call fails, for a session
    whose last message is not the assistant's.  With tool results and an
    intent it still replies, with the error template if some recorded result
    has a truthy ["error"] entry or a falsy ["success"] entry and with the
    success template otherwise; with no tool results the failure is not
    caught and the composer raises. *)
Theorem composer_on_model_failure (s : DialogState) :
  last_role_is (messages s) "assistant" = false →
  (dict_nonempty (tool_results s) = false → GenerationAgent_call None s = None)
  ∧ (∀ intent,
       dict_nonempty (tool_results s) = true → current_intent s = Some intent →
       ∃ cmd text,
         GenerationAgent_call None s = Some cmd
         ∧ u_messages (update cmd) = Some (messages s ++ [Message "assistant" text])
         ∧ ((∃ tool result, tool_results s !! tool = Some result
                            ∧ result_has_error result = true)
            → text = "I encountered some issues with your "
                       +:+ replace_underscores intent +:+ " request. Please try again.")
         ∧ ((∀ tool result, tool_results s !! tool = Some result
                            → result_has_error result = false)
            → text = "Great! I've completed your "
                       +:+ replace_underscores intent +:+ " request.")).
Proof.
  intros Hlast. unfold GenerationAgent_call. rewrite Hlast. split.
  - by intros ->.
  - intros intent -> ->. simpl.
    destruct (has_errors (tool_results s)) eqn:Herr.
    + eexists _, _. split; [reflexivity|]. split; [reflexivity|]. split; [done|].
      intros Hnone. apply has_errors_iff in Herr as (tool & result & Hlook & Hres).
      rewrite (Hnone _ _ Hlook) in Hres. discriminate.
    + eexists _, _. split; [reflexivity|]. split; [reflexivity|]. split; [|done].
      intros Hsome. apply has_errors_iff in Hsome. congruence.
Qed.

Lemma composer_on_model_failure_witness :
  GenerationAgent_call None (initial_state "Hello there") = None.
Proof.
  destruct (composer_on_model_failure (initial_state "Hello there")) as [Hraise _];
    [reflexivity|].
  apply Hraise. reflexivity.
Defined.

(** ** Tool executor: what a batch leaves behind *)

Section BatchResults.

Variable load_function : string → option py_function.

(** The entry the loop stores for a tool. *)
Definition tool_entry (parameters : gmap string value) (tool_name : string)
  : gmap string value :=
  match validate_tool_parameters tool_name parameters with
  | Invalid error =>
      {["error" := VStr ("Parameter validation failed: " +:+ error);
        "success" := VBool false]}
  | Valid => <["success" := VBool true]> (_execute_tool load_function tool_name parameters)
  end.

Lemma run_tool_results parameters acc t :
  batch_results (run_tool load_function parameters acc t)
  = <[t := tool_entry parameters t]> (batch_results acc).
Proof.
  unfold run_tool, tool_entry. by destruct (validate_tool_parameters t parameters).
Qed.

Lemma run_tool_completed parameters acc t :
  completed_tools (run_tool load_function parameters acc t)
  = completed_tools acc
    ++ List.filter (λ t, is_valid (validate_tool_parameters t parameters)) [t].
Proof.
  unfold run_tool. simpl.
  destruct (validate_tool_parameters t parameters); simpl; [done|by rewrite app_nil_r].
Qed.

Lemma batch_results_lookup parameters tools : ∀ acc t,
  batch_results (foldl (run_tool load_function parameters) acc tools) !! t
  = if bool_decide (t ∈ tools) then Some (tool_entry parameters t)
    else batch_results acc !! t.
Proof.
  induction tools as [|x tools IH]; intros acc t.
  { rewrite bool_decide_eq_false_2; [done|apply not_elem_of_nil]. }
  change (foldl ?f acc (x :: tools)) with (foldl f (f acc x) tools).
  rewrite IH, run_tool_results.
  destruct (decide (t ∈ tools)) as [Hin|Hout].
  - rewrite !bool_decide_eq_true_2; [done|by apply list_elem_of_further|done].
  - rewrite (bool_decide_eq_false_2 (t ∈ tools)) by done.
    destruct (decide (t = x)) as [->|Hne].
    + rewrite lookup_insert_eq, bool_decide_eq_true_2; [done|apply list_elem_of_here].
    + rewrite lookup_insert_ne by done.
      rewrite bool_decide_eq_false_2; [done|].
      intros [?|?]%elem_of_cons; done.
Qed.

Lemma batch_completed parameters tools : ∀ acc,
  completed_tools (foldl (run_tool load_function parameters) acc tools)
  = completed_tools acc
    ++ List.filter (λ t, is_valid (validate_tool_parameters t parameters)) tools.
Proof.
  induction tools as [|x tools IH]; intros acc.
  { simpl. by rewrite app_nil_r. }
  change (foldl ?f acc (x :: tools)) with (foldl f (f acc x) tools).
  rewrite IH, run_tool_completed, <- app_assoc. f_equal.
  simpl. by destruct (is_valid _).
Qed.

Lemma executor_results (s : DialogState) (batch : list string) (current_batch : Z) :
  selected_tools s ≠ [] →
  missing_in (required_of s) (extracted_parameters s) = [] →
  ctx_int (dialog_context s) "current_tool_batch" 0 = current_batch →
  0 ≤ current_batch →
  ctx_batches (dialog_context s) "tool_execution_order" !! Z.to_nat current_batch
    = Some batch →
  ∃ cmd results ctx,
    ToolExecutingAgent_call load_function s = Some cmd
    ∧ goto cmd = supervisor
    ∧ u_tool_results (update cmd) = Some results
    ∧ (∀ t, t ∈ batch → results !! t = Some (tool_entry (extracted_parameters s) t))
    ∧ (∀ t, t ∉ batch → results !! t = tool_results s !! t)
    ∧ u_dialog_context (update cmd) = Some ctx
    ∧ ctx_list ctx "completed_tools"
      = ctx_list (dialog_context s) "completed_tools"
        ++ List.filter (λ t, is_valid (validate_tool_parameters t (extracted_parameters s)))
                       batch.
Proof.
  intros Hsel Hmiss Hcur Hnonneg Hbatch.
  unfold ToolExecutingAgent_call.
  destruct (selected_tools s) as [|t0 ts]; [done|]. simpl.
  unfold required_of in Hmiss. rewrite Hmiss, Hcur.
  pose proof (lookup_lt_Some _ _ _ Hbatch) as Hlt.
  destruct (current_batch >=? _) eqn:Ege; [lia|].
  unfold py_index.
  destruct (0 <=? current_batch) eqn:Ele; [|lia].
  rewrite Hbatch. simpl.
  eexists _, _, _. split; [reflexivity|]. split; [reflexivity|].
  split; [reflexivity|]. split; [|split; [|split; [reflexivity|]]].
  - intros t Ht. apply lookup_union_Some_l.
    rewrite batch_results_lookup. by rewrite bool_decide_eq_true_2.
  - intros t Ht. apply lookup_union_r.
    rewrite batch_results_lookup. by rewrite bool_decide_eq_false_2.
  - unfold ctx_list at 1. rewrite lookup_insert_ne, lookup_insert_eq by done.
    by rewrite batch_completed.
Qed.

End BatchResults.

(** X17. When the executor processes a batch, every tool of the batch gets
    an entry in [tool_results], also after another tool of the batch has
    failed: an error entry with ["success": False] when its validation
    fails, otherwise what [_execute_tool] returned with ["success": True]
    added.  Results recorded for tools outside the batch are kept, control
    returns to the router, and [completed_tools] grows by the tools that
    passed validation, in batch order. *)
Theorem executor_records_every_tool (load_function : string → option py_function)
        (s : DialogState) (batch : list string) (current_batch : Z) :
  selected_tools s ≠ [] →
  missing_in (required_of s) (extracted_parameters s) = [] →
  ctx_int (dialog_context s) "current_tool_batch" 0 = current_batch →
  0 ≤ current_batch →
  ctx_batches (dialog_context s) "tool_execution_order" !! Z.to_nat current_batch
    = Some batch →
  ∃ cmd results ctx,
    ToolExecutingAgent_call load_function s = Some cmd
    ∧ goto cmd = supervisor
    ∧ u_tool_results (update cmd) = Some results
    ∧ (∀ t, t ∈ batch →
         results !! t = Some (tool_entry load_function (extracted_parameters s) t))
    ∧ (∀ t, t ∉ batch → results !! t = tool_results s !! t)
    ∧ u_dialog_context (update cmd) = Some ctx
    ∧ ctx_list ctx "completed_tools"
      = ctx_list (dialog_context s) "completed_tools"
        ++ List.filter (λ t, is_valid (validate_tool_parameters t (extracted_parameters s)))
                       batch.
Proof. apply executor_results. Qed.

Lemma executor_records_every_tool_witness :
  ∃ cmd results ctx,
    ToolExecutingAgent_call (travel_tools idle_body) hotel_booking_session = Some cmd
    ∧ goto cmd = supervisor
    ∧ u_tool_results (update cmd) = Some results
    ∧ (∀ t, t ∈ ["book_hotel"] →
         results !! t
         = Some (tool_entry (travel_tools idle_body)
                            (extracted_parameters hotel_booking_session) t))
    ∧ (∀ t, t ∉ ["book_hotel"] → results !! t = tool_results hotel_booking_session !! t)
    ∧ u_dialog_context (update cmd) = Some ctx
    ∧ ctx_list ctx "completed_tools"
      = ctx_list (dialog_context hotel_booking_session) "completed_tools"
        ++ List.filter
             (λ t, is_valid (validate_tool_parameters t
                               (extracted_parameters hotel_booking_session)))
             ["book_hotel"].
Proof.
  apply (executor_records_every_tool (travel_tools idle_body) hotel_booking_session
           ["book_hotel"] 1).
  - discriminate.
  - vm_compute. reflexivity.
  - reflexivity.
  - lia.
  - reflexivity.
Defined.

Lemma truthy_get_insert_ne (d : gmap string value) (k k' : string) (v : value) :
  k ≠ k' → truthy_get (<[k := v]> d) k' = truthy_get d k'.
Proof. intros H. unfold truthy_get. by rewrite lookup_insert_ne. Qed.

(** X18. A failure inside a batch is visible to the composer: if a tool of
    the processed batch fails validation, or if what [_execute_tool]
    returned for it has a truthy ["error"] entry (a caught exception, an
    unknown function), then [has_errors] holds of the resulting
    [tool_results], also when the batch counted as successful. *)
Theorem batch_failure_reaches_composer (load_function : string → option py_function)
        (s : DialogState) (batch : list string) (current_batch : Z) (t : string) :
  selected_tools s ≠ [] →
  missing_in (required_of s) (extracted_parameters s) = [] →
  ctx_int (dialog_context s) "current_tool_batch" 0 = current_batch →
  0 ≤ current_batch →
  ctx_batches (dialog_context s) "tool_execution_order" !! Z.to_nat current_batch
    = Some batch →
  t ∈ batch →
  (is_valid (validate_tool_parameters t (extracted_parameters s)) = false
   ∨ truthy_get (_execute_tool load_function t (extracted_parameters s)) "error" = true) →
  ∃ cmd results,
    ToolExecutingAgent_call load_function s = Some cmd
    ∧ u_tool_results (update cmd) = Some results
    ∧ has_errors results = true.
Proof.
  intros Hsel Hmiss Hcur Hnonneg Hbatch Ht Hfail.
  destruct (executor_results load_function s batch current_batch Hsel Hmiss Hcur
              Hnonneg Hbatch)
    as (cmd & results & ctx & Hcall & _ & Hres & Hin & _).
  exists cmd, results. split; [done|]. split; [done|].
  apply has_errors_iff. eexists t, _. split; [by apply Hin|].
  unfold tool_entry, result_has_error.
  destruct (validate_tool_parameters t (extracted_parameters s)) eqn:Eval.
  - destruct Hfail as [Hfail|Hfail]; [discriminate|].
    rewrite truthy_get_insert_ne by done. by rewrite Hfail.
  - unfold truthy_get at 1. by rewrite lookup_insert_eq.
Qed.

Lemma batch_failure_reaches_composer_witness :
  ∃ cmd results,
    ToolExecutingAgent_call (travel_tools idle_body) hotel_booking_session = Some cmd
    ∧ u_tool_results (update cmd) = Some results
    ∧ has_errors results = true.
Proof.
  apply (batch_failure_reaches_composer (travel_tools idle_body) hotel_booking_session
           ["book_hotel"] 1 "book_hotel").
  - discriminate.
  - vm_compute. reflexivity.
  - reflexivity.
  - lia.
  - reflexivity.
  - apply list_elem_of_singleton. reflexivity.
  - right. vm_compute. reflexivity.
Defined.

(** ** Tool registry *)

Lemma find_none_iff {A} (p : A → bool) (l : list A) :
  List.find p l = None ↔ ∀ x, In x l → p x = false.
Proof.
  split; [apply find_none|].
  induction l as [|a l IH]; [done|]. intros H. simpl.
  rewrite (H a (or_introl eq_refl)). apply IH. intros x Hx. apply H. by right.
Qed.

Lemma validate_valid_iff (tool_name : string) (parameters : gmap string value) :
  validate_tool_parameters tool_name parameters = Valid
  ↔ ∃ cfg, TOOLS !! tool_name = Some cfg
           ∧ ∀ param, param ∈ tc_parameters cfg → truthy_get parameters param = true.
Proof.
  unfold validate_tool_parameters, get_tool_config.
  destruct (TOOLS !! tool_name) as [cfg|]; [|split; [discriminate|by intros (? & ? & _)]].
  destruct (List.find _ _) as [param|] eqn:Efind.
  - split; [discriminate|]. intros (cfg' & [= <-] & Hall).
    apply find_some in Efind as [Hin Hfalsy].
    rewrite (Hall param) in Hfalsy by by apply list_elem_of_In. discriminate.
  - split; [|done]. intros _. exists cfg. split; [done|].
    intros param Hin%list_elem_of_In.
    pose proof (proj1 (find_none_iff _ _) Efind param Hin) as H. simpl in H.
    by destruct (truthy_get parameters param).
Qed.

(** X19. [validate_tool_parameters] accepts exactly when the tool is
    configured and every parameter the configuration lists has a truthy
    value; an unknown tool and a missing, empty or zero parameter are
    rejected. *)
Theorem validation_accepts_iff (tool_name : string) (parameters : gmap string value) :
  validate_tool_parameters tool_name parameters = Valid
  ↔ ∃ cfg, TOOLS !! tool_name = Some cfg
           ∧ ∀ param, param ∈ tc_parameters cfg → truthy_get parameters param = true.
Proof. apply validate_valid_iff. Qed.

(** Every tool of every intent is configured, and asks only for parameters
    of that intent. *)
Definition tables_agree : bool :=
  forallb (λ '(_, cfg),
     forallb (λ tool,
        match TOOLS !! tool with
        | Some tcfg =>
            forallb (λ param, bool_decide (param ∈ (ic_parameters cfg).*1))
                    (tc_parameters tcfg)
        | None => false
        end) (ic_tools cfg))
    INTENTS_items.

(** X20. For a session set up for a configured intent, the executor's
    guard on the required parameters already implies the per-tool
    validation: when no parameter of the intent is missing, every tool of
    the intent passes [validate_tool_parameters]. *)
Theorem complete_parameters_validate (intent : string) (cfg : intent_config)
        (tool : string) (parameters : gmap string value) :
  INTENTS !! intent = Some cfg →
  tool ∈ ic_tools cfg →
  missing_in (ic_parameters cfg).*1 parameters = [] →
  validate_tool_parameters tool parameters = Valid.
Proof.
  intros Hcfg Htool Hmiss.
  assert (Hagree : tables_agree = true) by (vm_compute; reflexivity).
  unfold tables_agree in Hagree. rewrite forallb_forall in Hagree.
  apply elem_of_list_to_map_2, list_elem_of_In in Hcfg.
  specialize (Hagree _ Hcfg). simpl in Hagree.
  rewrite forallb_forall in Hagree.
  apply list_elem_of_In in Htool. specialize (Hagree _ Htool).
  destruct (TOOLS !! tool) as [tcfg|] eqn:Etool; [|discriminate].
  rewrite forallb_forall in Hagree.
  apply validate_valid_iff. exists tcfg. split; [done|].
  intros param Hparam%list_elem_of_In.
  apply Hagree, bool_decide_eq_true, list_elem_of_In in Hparam.
  unfold missing_in in Hmiss.
  pose proof (proj1 (filter_nil_iff _ _) Hmiss param Hparam) as H. simpl in H.
  by destruct (truthy_get parameters param).
Qed.

Lemma complete_parameters_validate_witness :
  validate_tool_parameters "book_hotel"
    (list_to_map [("destination", VStr "Paris"); ("days", VInt 3)]) = Valid.
Proof.
  apply (complete_parameters_validate "book_hotel"
           (IntentConfig "Book hotel accommodation" ["search_hotels"; "book_hotel"]
              [ ("destination", ParamConfig "string" "City or location for hotel"
                                  "Which city do you need a hotel in?" true);
                ("days", ParamConfig "int" "Number of days to stay"
                                  "How many days will you be staying?" true) ])).
  - reflexivity.
  - apply list_elem_of_In. simpl. auto.
  - vm_compute. reflexivity.
Defined.

(** The keyword arguments [_execute_tool] builds from the configured
    parameter names. *)
Definition kwargs_for (params : list string) (parameters : gmap string value)
  : list (string * value) :=
  (λ param, (param, default VNone (parameters !! param))) <$> params.

Lemma kwargs_for_names params parameters : (kwargs_for params parameters).*1 = params.
Proof.
  unfold kwargs_for. induction params as [|p params IH]; [done|].
  rewrite !fmap_cons. simpl. f_equal. exact IH.
Qed.

(** X21. [_execute_tool] never raises.  For a configured tool whose
    function is found: if the function declares exactly the configured
    parameter names, the result is what the body returns (a map as it is, a
    scalar under ["result"], an exception as an ["error"] entry), a
    parameter absent from the session being passed as [None]; if the names
    differ, the body is not run and the result is an ["error"] entry. *)
Theorem execute_tool_by_signature (load_function : string → option py_function)
        (tool_name : string) (cfg : tool_config) (f : py_function)
        (parameters : gmap string value) :
  TOOLS !! tool_name = Some cfg →
  load_function (tc_function cfg) = Some f →
  ((∀ p, p ∈ fn_params f ↔ p ∈ tc_parameters cfg) →
   _execute_tool load_function tool_name parameters
   = match fn_body f (list_to_map (kwargs_for (tc_parameters cfg) parameters)) with
     | RDict result => result
     | RScalar result => {["result" := result]}
     | RRaise e => {["error" := VStr ("Tool execution failed: " +:+ e)]}
     end)
  ∧ (¬ (∀ p, p ∈ fn_params f ↔ p ∈ tc_parameters cfg) →
     ∃ e, _execute_tool load_function tool_name parameters
          = {["error" := VStr ("Tool execution failed: " +:+ e)]}).
Proof.
  intros Hcfg Hload.
  unfold _execute_tool, get_tool, get_tool_config. rewrite Hcfg. simpl. rewrite Hload.
  fold (kwargs_for (tc_parameters cfg) parameters).
  unfold py_call. rewrite kwargs_for_names.
  destruct (List.find _ (kwargs_for _ _)) as [[k v]|] eqn:Efind.
  { split; [|by eexists]. intros Hsame. exfalso.
    apply find_some in Efind as [Hin Hout]. simpl in Hout.
    apply negb_true_iff, bool_decide_eq_false in Hout. apply Hout, Hsame.
    rewrite <- (kwargs_for_names (tc_parameters cfg) parameters).
    apply list_elem_of_In, in_map_iff. by exists (k, v). }
  destruct (List.filter _ (fn_params f)) as [|m ms] eqn:Efilter.
  { split; [done|]. intros Hdiff. exfalso. apply Hdiff. intros p. split.
    - intros Hp%list_elem_of_In.
      pose proof (proj1 (filter_nil_iff _ _) Efilter p Hp) as H. simpl in H.
      by apply negb_false_iff, bool_decide_eq_true in H.
    - intros Hp. rewrite <- (kwargs_for_names (tc_parameters cfg) parameters) in Hp.
      apply list_elem_of_In, in_map_iff in Hp as ([k v] & <- & Hin).
      pose proof (proj1 (find_none_iff _ _) Efind _ Hin) as H. simpl in H.
      by apply negb_false_iff, bool_decide_eq_true in H. }
  split; [|by eexists]. intros Hsame. exfalso.
  assert (In m (m :: ms)) as Hm by by left.
  rewrite <- Efilter in Hm. apply filter_In in Hm as [Hm Hout].
  apply negb_true_iff, bool_decide_eq_false in Hout.
  apply Hout, Hsame. by apply list_elem_of_In.
Qed.

Lemma execute_tool_by_signature_witness :
  ∃ e, _execute_tool (travel_tools idle_body) "book_hotel"
         (list_to_map [("destination", VStr "Paris"); ("days", VInt 3)])
       = {["error" := VStr ("Tool execution failed: " +:+ e)]}.
Proof.
  destruct (execute_tool_by_signature (travel_tools idle_body) "book_hotel"
              (ToolConfig "travel_tools.book_hotel" "Book a specific hotel"
                          ["destination"; "days"] (Some ["hotel_options"]) "hotel_booking")
              (PyFunction "book_hotel" ["city"; "days"] (idle_body "book_hotel"))
              (list_to_map [("destination", VStr "Paris"); ("days", VInt 3)]))
    as [_ Hdiff]; [reflexivity|reflexivity|].
  apply Hdiff. intros Hsame.
  assert ("city" ∈ ["destination"; "days"]) as Hin.
  { apply Hsame. simpl. apply list_elem_of_here. }
  apply list_elem_of_In in Hin. simpl in Hin.
  destruct Hin as [Hin|[Hin|[]]]; discriminate.
Defined.

(** ** Tool choosing *)

(** X22. For a session whose intent is configured, tool choosing returns to
    the router with the intent's tools selected, the intent's parameter names
    as required parameters, a plan that holds each of the intent's tools
    once, and the cursor at 0.  The previous [dialog_context] is discarded:
    only the four entries written here remain, so retry counts and a pending
    proposal are gone.  Messages, intent, parameters, results and paused
    intents are kept. *)
Theorem tool_choosing_sets_plan (set_order : list string → list string)
        (s : DialogState) (intent : string) (cfg : intent_config) :
  (∀ l, set_order l ≡ₚ l) →
  current_intent s = Some intent →
  INTENTS !! intent = Some cfg →
  ∃ cmd eo,
    ToolChoosingAgent_call set_order s = Some cmd
    ∧ goto cmd = supervisor
    ∧ let s' := apply_update s (update cmd) in
      selected_tools s' = ic_tools cfg
      ∧ required_of s' = (ic_parameters cfg).*1
      ∧ dialog_context s' !! "tool_execution_order" = Some (CBatches eo)
      ∧ concat eo ≡ₚ remove_dups (ic_tools cfg)
      ∧ dialog_context s' !! "current_tool_batch" = Some (CInt 0)
      ∧ dialog_context s' !! "completed_tools" = Some (CStrList [])
      ∧ (∀ key, key ∉ ["required_parameters"; "tool_execution_order";
                       "current_tool_batch"; "completed_tools"] →
                dialog_context s' !! key = None)
      ∧ s' = mkState (messages s) (current_intent s) (paused_intents s)
                     (extracted_parameters s) (selected_tools s') (tool_results s)
                     (dialog_context s').
Proof.
  intros Hperm Hcur Hcfg.
  destruct (get_tool_execution_order_partition TOOLS INTENTS set_order Hperm _ _ Hcfg)
    as (eo & Hrun & Hpart & _ & _).
  assert (Hname : String.eqb intent "" = false).
  { apply String.eqb_neq. intros ->. vm_compute in Hcfg. discriminate. }
  unfold ToolChoosingAgent_call. rewrite Hcur. simpl. rewrite Hname. simpl.
  unfold get_intent_config at 1. rewrite Hcfg, Hrun. simpl.
  eexists _, eo. split; [reflexivity|]. split; [reflexivity|]. simpl.
  split; [done|].
  split; [unfold required_of, ctx_list; cbn [apply_update dialog_context default
            u_dialog_context id]; by rewrite lookup_insert_eq|].
  split; [rewrite lookup_insert_ne by done; by rewrite lookup_insert_eq|].
  split; [done|].
  split; [rewrite !lookup_insert_ne by done; by rewrite lookup_insert_eq|].
  split; [rewrite !lookup_insert_ne by done; by rewrite lookup_insert_eq|].
  split; [|unfold apply_update; simpl; by rewrite Hcur].
  intros key Hkey.
  rewrite !lookup_insert_ne, lookup_empty; [done|..];
    intros <-; apply Hkey, list_elem_of_In; simpl; auto.
Qed.

Lemma tool_choosing_sets_plan_witness :
  ∃ cmd eo,
    ToolChoosingAgent_call insertion_order paused_hotel_session = Some cmd
    ∧ goto cmd = supervisor
    ∧ let s' := apply_update paused_hotel_session (update cmd) in
      selected_tools s' = ["search_flights"; "book_flight"]
      ∧ required_of s' = ["origin"; "destination"; "date"]
      ∧ dialog_context s' !! "tool_execution_order" = Some (CBatches eo)
      ∧ concat eo ≡ₚ remove_dups ["search_flights"; "book_flight"]
      ∧ dialog_context s' !! "current_tool_batch" = Some (CInt 0)
      ∧ dialog_context s' !! "completed_tools" = Some (CStrList [])
      ∧ (∀ key, key ∉ ["required_parameters"; "tool_execution_order";
                       "current_tool_batch"; "completed_tools"] →
                dialog_context s' !! key = None)
      ∧ s' = mkState (messages paused_hotel_session) (current_intent paused_hotel_session)
                     (paused_intents paused_hotel_session)
                     (extracted_parameters paused_hotel_session) (selected_tools s')
                     (tool_results paused_hotel_session) (dialog_context s').
Proof.
  apply (tool_choosing_sets_plan insertion_order paused_hotel_session "book_flight"
           (IntentConfig "Book airline tickets" ["search_flights"; "book_flight"]
              [ ("origin", ParamConfig "string" "Departure city or airport"
                             "Which city or airport are you departing from?" true);
                ("destination", ParamConfig "string" "Arrival city or airport"
                             "Where would you like to fly to?" true);
                ("date", ParamConfig "date" "Travel date"
                             "What date would you like to travel?" true) ])).
  - intros l. reflexivity.
  - reflexivity.
  - reflexivity.
Defined.

(** ** Configuration helpers *)

(** [get_missing_parameters] of [system_config.py]. *)
Definition get_missing_parameters (intent_name : string) (current_params : gmap string value)
  : list string :=
  match get_intent_config INTENTS intent_name with
  | None => []
  | Some intent_config =>
      (List.filter (λ '(param_name, param_config),
                      pc_required param_config && negb (truthy_get current_params param_name))
                   (ic_parameters intent_config)).*1
  end.

Lemma filter_required_names (params : list (string * param_config))
      (current_params : gmap string value) :
  forallb (λ kv, pc_required kv.2) params = true →
  (List.filter (λ '(param_name, param_config),
                  pc_required param_config && negb (truthy_get current_params param_name))
               params).*1
  = missing_in params.*1 current_params.
Proof.
  unfold missing_in. induction params as [|[name pc] params IH]; [done|].
  intros [Hreq Hall]%andb_true_iff. simpl in Hreq.
  specialize (IH Hall). cbn. rewrite Hreq. cbn.
  destruct (truthy_get current_params name); cbn; [exact IH|].
  f_equal. exact IH.
Qed.

(** X23. For every configured intent, [get_missing_parameters] names the
    same parameters, in the same order, as the slot filler and the executor
    find missing among the required parameters that tool choosing stores for
    that intent; for an unknown intent it names none. *)
Theorem missing_parameters_agree (intent_name : string)
        (current_params : gmap string value) :
  get_missing_parameters intent_name current_params
  = match INTENTS !! intent_name with
    | Some cfg => missing_in (ic_parameters cfg).*1 current_params
    | None => []
    end.
Proof.
  unfold get_missing_parameters, get_intent_config.
  destruct (INTENTS !! intent_name) as [cfg|] eqn:Ecfg; [|done].
  apply filter_required_names.
  assert (Hall : forallb (λ '(_, cfg), forallb (λ kv, pc_required kv.2) (ic_parameters cfg))
                         INTENTS_items = true) by (vm_compute; reflexivity).
  rewrite forallb_forall in Hall.
  apply elem_of_list_to_map_2, list_elem_of_In in Ecfg.
  exact (Hall _ Ecfg).
Qed.

(** ** Clarification questions *)

Lemma prefix_append (w b : string) : String.prefix w (w +:+ b) = true.
Proof.
  induction w as [|c w IH]; [by destruct b|]. simpl.
  by destruct (ascii_dec c c).
Qed.

Lemma prefix_append_r (w s b : string) :
  String.prefix w s = true → String.prefix w (s +:+ b) = true.
Proof.
  revert s. induction w as [|c w IH]; intros s; [by destruct s, b|].
  destruct s as [|d s]; simpl; [discriminate|].
  destruct (ascii_dec c d); [apply IH|discriminate].
Qed.

Lemma contains_unfold (w s : string) :
  contains w s
  = (String.prefix w s ||
     match s with EmptyString => false | String _ s' => contains w s' end)%bool.
Proof. by destruct s. Qed.

Lemma contains_append_r (w s b : string) :
  contains w s = true → contains w (s +:+ b) = true.
Proof.
  induction s as [|c s IH].
  - rewrite contains_unfold. rewrite orb_false_r. intros H.
    destruct w; [|simpl in H; discriminate].
    rewrite contains_unfold. by destruct b.
  - rewrite contains_unfold. intros [H|H]%orb_true_iff.
    + rewrite contains_unfold. by rewrite (prefix_append_r _ _ _ H).
    + change (String c s +:+ b) with (String c (s +:+ b)).
      rewrite contains_unfold. rewrite (IH H). apply orb_true_r.
Qed.

Lemma contains_append_l (w a s : string) :
  contains w s = true → contains w (a +:+ s) = true.
Proof.
  intros H. induction a as [|c a IH]; [done|].
  change (String c a +:+ s) with (String c (a +:+ s)).
  rewrite contains_unfold, IH. apply orb_true_r.
Qed.

Lemma contains_self_append (w b : string) : contains w (w +:+ b) = true.
Proof. rewrite contains_unfold. by rewrite prefix_append. Qed.

Lemma contains_self (w : string) : contains w w = true.
Proof.
  rewrite contains_unfold.
  assert (String.prefix w w = true) as ->; [|done].
  induction w as [|c w IH]; [done|]. simpl. by destruct (ascii_dec c c).
Qed.

Lemma contains_join (sep x : string) (l : list string) :
  x ∈ l → contains x (join sep l) = true.
Proof.
  induction l as [|y l IH]; [by intros ?%elem_of_nil|].
  intros [->|Hin]%elem_of_cons.
  - destruct l; [apply contains_self|apply contains_self_append].
  - destruct l as [|z l]; [by apply elem_of_nil in Hin|].
    change (join sep (y :: z :: l)) with (y +:+ sep +:+ join sep (z :: l)).
    apply contains_append_l, contains_append_l. by apply IH.
Qed.

Lemma in_take_or_last {A} (l : list A) (x : A) :
  x ∈ l → x ∈ take (length l - 1) l ∨ last l = Some x.
Proof.
  induction l as [|y l IH]; [by intros ?%elem_of_nil|].
  destruct l as [|z l].
  - intros ->%list_elem_of_singleton. by right.
  - intros [->|Hin]%elem_of_cons.
    + left. simpl. apply list_elem_of_here.
    + destruct (IH Hin) as [H|H]; [|by right].
      left. simpl in *. rewrite Nat.sub_0_r in H. by apply list_elem_of_further.
Qed.

(** X24. The clarification question asks for every missing parameter: the
    question text configured for each of them (or the default wording when
    none is configured) occurs in the message, however many parameters are
    missing. *)
Theorem clarification_asks_for_each (intent_name : option string)
        (missing_params : list string) (param : string) :
  param ∈ missing_params →
  contains (get_parameter_question intent_name param)
           (_generate_clarification_question intent_name missing_params) = true.
Proof.
  intros Hin. unfold _generate_clarification_question.
  destruct missing_params as [|a [|b [|c l]]].
  - by apply elem_of_nil in Hin.
  - apply list_elem_of_singleton in Hin as ->.
    apply contains_append_l, contains_self.
  - apply elem_of_cons in Hin as [->|Hin].
    + apply contains_append_l, contains_self_append.
    + apply list_elem_of_singleton in Hin as ->.
      do 3 apply contains_append_l. apply contains_self.
  - set (questions := get_parameter_question intent_name <$> a :: b :: c :: l).
    assert (get_parameter_question intent_name param ∈ questions) as Hq.
    { apply list_elem_of_fmap. by exists param. }
    apply in_take_or_last in Hq as [Hq|Hq].
    + apply contains_append_l, contains_append_r. by apply contains_join.
    + rewrite Hq.
      change (default "" (Some (get_parameter_question intent_name param)))
        with (get_parameter_question intent_name param).
      do 3 apply contains_append_l. apply contains_self.
Qed.

Lemma clarification_asks_for_each_witness :
  contains "How many days will you be staying?"
           (_generate_clarification_question (Some "book_hotel") ["destination"; "days"])
  = true.
Proof.
  apply (clarification_asks_for_each (Some "book_hotel") ["destination"; "days"] "days").
  apply list_elem_of_further, list_elem_of_here.
Defined.

(** ** Execution failures and the batch cursor *)

(** C8. Take a session the router sends to the executor (tools selected, no
    result recorded, no required parameter missing) whose current batch
    passes validation, and a tool of that batch whose execution fails, so
    that [_execute_tool] returns an ["error"] entry for it.  The executor
    records that entry with ["success": True], reports the batch as
    successful and moves the cursor to the next batch: a batch with a failed
    execution is not tried again. *)
Theorem execution_failure_advances_cursor (load_function : string → option py_function)
        (s : DialogState) (batch : list string) (current_batch : Z) (t : string) :
  selected_tools s ≠ [] →
  dict_nonempty (tool_results s) = false →
  missing_in (required_of s) (extracted_parameters s) = [] →
  ctx_int (dialog_context s) "current_tool_batch" 0 = current_batch →
  0 ≤ current_batch →
  ctx_batches (dialog_context s) "tool_execution_order" !! Z.to_nat current_batch
    = Some batch →
  forallb (λ t, is_valid (validate_tool_parameters t (extracted_parameters s))) batch = true →
  t ∈ batch →
  truthy_get (_execute_tool load_function t (extracted_parameters s)) "error" = true →
  _decide_next_action s = tool_executing
  ∧ ∃ cmd ctx results,
      ToolExecutingAgent_call load_function s = Some cmd
      ∧ u_dialog_context (update cmd) = Some ctx
      ∧ u_tool_results (update cmd) = Some results
      ∧ results !! t
        = Some (<["success" := VBool true]>
                  (_execute_tool load_function t (extracted_parameters s)))
      ∧ result_has_error
          (<["success" := VBool true]>
             (_execute_tool load_function t (extracted_parameters s))) = true
      ∧ ctx !! "batch_execution_success" = Some (CBool true)
      ∧ ctx_int ctx "current_tool_batch" 0 = current_batch + 1.
Proof.
  intros Hsel Hres Hmiss Hcur Hnonneg Hbatch Hvalid Ht Herr.
  split; [by apply decide_executes_iff|].
  assert (Hvalid_t : validate_tool_parameters t (extracted_parameters s) = Valid).
  { rewrite forallb_forall in Hvalid.
    apply list_elem_of_In, Hvalid in Ht.
    by destruct (validate_tool_parameters t (extracted_parameters s)). }
  unfold ToolExecutingAgent_call.
  destruct (selected_tools s) as [|t0 ts]; [done|]. simpl.
  unfold required_of in Hmiss. rewrite Hmiss, Hcur.
  pose proof (lookup_lt_Some _ _ _ Hbatch) as Hlt.
  destruct (current_batch >=? _) eqn:Ege; [lia|].
  unfold py_index.
  destruct (0 <=? current_batch) eqn:Ele; [|lia].
  rewrite Hbatch. simpl.
  eexists _, _, _. split; [reflexivity|]. split; [reflexivity|].
  split; [reflexivity|].
  rewrite batch_success_validation, Hvalid. simpl.
  split; [|split; [|split]].
  - apply lookup_union_Some_l.
    rewrite batch_results_lookup, bool_decide_eq_true_2 by done.
    unfold tool_entry. by rewrite Hvalid_t.
  - unfold result_has_error. rewrite truthy_get_insert_ne by done. by rewrite Herr.
  - by rewrite lookup_insert_eq.
  - unfold ctx_int. by rewrite !lookup_insert_ne, lookup_insert_eq by done.
Qed.

(** [type(v).__name__] *)
Definition type_name (v : value) : string :=
  match v with
  | VNone => "NoneType"
  | VBool _ => "bool"
  | VInt _ => "int"
  | VStr _ => "str"
  end.

(** Tool bodies with the behaviour of [get_weather] on its destination: as
    in [travel_tools.py] it calls [destination.lower()], which raises
    [AttributeError] when the destination is not a string.  The result maps
    of the mock tools are shortened to their status entry. *)
Definition weather_body (name : string) (kwargs : gmap string value) : py_result :=
  if String.eqb name "get_weather" then
    match kwargs !! "destination" with
    | Some (VStr _) | None => RDict {["status" := VStr "success"]}
    | Some v => RRaise ("'" +:+ type_name v +:+ "' object has no attribute 'lower'")
    end
  else RDict {["status" := VStr "success"]}.

(** The model's answers in the vacation scenario: the destination comes
    back as a number. *)
Definition vacation_llm (hop : nat) : Oracle :=
  mkOracle (Some "plan_vacation")
           (Some (list_to_map [("origin", VStr "NYC"); ("destination", VInt 75001);
                               ("date", VStr "Dec 25"); ("days", VInt 3)]))
           (Some "Your vacation is planned.").

(** The vacation session as the router hands it to the executor. *)
Definition vacation_session : DialogState :=
  mkState [Message "user" "Plan my vacation from NYC to 75001 on Dec 25 for 3 days"]
          (Some "plan_vacation") []
          (list_to_map [("origin", VStr "NYC"); ("destination", VInt 75001);
                        ("date", VStr "Dec 25"); ("days", VInt 3)])
          ["search_flights"; "search_hotels"; "get_weather"; "book_flight"; "book_hotel"]
          ∅
          (list_to_map
             [("required_parameters", CStrList ["origin"; "destination"; "date"; "days"]);
              ("tool_execution_order",
                 CBatches [["search_flights"; "search_hotels"; "get_weather"];
                           ["book_flight"]; ["book_hotel"]]);
              ("current_tool_batch", CInt 0);
              ("completed_tools", CStrList []);
              ("last_missing_params", CStrList []);
              ("needs_clarification", CBool false);
              ("last_response_type", CStr "parameter_progress")]).

(** The node and the state reached after [n] hops of the graph. *)
Fixpoint after_hops (set_order : list string → list string)
         (load_function : string → option py_function) (llm : nat → Oracle)
         (n hop : nat) (at_node : node) (state : DialogState)
  : option (node * DialogState) :=
  match n with
  | O => Some (at_node, state)
  | S n' =>
      cmd ← call_node set_order load_function llm at_node hop state;
      after_hops set_order load_function llm n' (S hop) (goto cmd)
                 (apply_update state (update cmd))
  end.

(** The first message of the vacation scenario leads, through supervisor,
    tool choosing, supervisor, slot filler and supervisor, to the executor
    on [vacation_session]. *)
Example vacation_session_reached :
  after_hops insertion_order (travel_tools weather_body) vacation_llm 5 0 supervisor
             (initial_state "Plan my vacation from NYC to 75001 on Dec 25 for 3 days")
  = Some (tool_executing, vacation_session).
Proof. vm_compute. reflexivity. Qed.

Lemma execution_failure_advances_cursor_witness :
  _decide_next_action vacation_session = tool_executing
  ∧ ∃ cmd ctx results,
      ToolExecutingAgent_call (travel_tools weather_body) vacation_session = Some cmd
      ∧ u_dialog_context (update cmd) = Some ctx
      ∧ u_tool_results (update cmd) = Some results
      ∧ results !! "get_weather"
        = Some (<["success" := VBool true]>
                  (_execute_tool (travel_tools weather_body) "get_weather"
                                 (extracted_parameters vacation_session)))
      ∧ result_has_error
          (<["success" := VBool true]>
             (_execute_tool (travel_tools weather_body) "get_weather"
                            (extracted_parameters vacation_session))) = true
      ∧ ctx !! "batch_execution_success" = Some (CBool true)
      ∧ ctx_int ctx "current_tool_batch" 0 = 0 + 1.
Proof.
  apply (execution_failure_advances_cursor (travel_tools weather_body) vacation_session
           ["search_flights"; "search_hotels"; "get_weather"] 0 "get_weather").
  - discriminate.
  - reflexivity.
  - vm_compute. reflexivity.
  - reflexivity.
  - lia.
  - reflexivity.
  - vm_compute. reflexivity.
  - apply list_elem_of_In. simpl. auto.
  - vm_compute. reflexivity.
Defined.

(** What [_execute_tool] returns for [get_weather] on that session. *)
Example weather_error_entry :
  _execute_tool (travel_tools weather_body) "get_weather"
                (extracted_parameters vacation_session)
  = {["error" := VStr "Tool execution failed: 'int' object has no attribute 'lower'"]}.
Proof. vm_compute. reflexivity. Qed.
